(** * Context7 MCP server: request handling, configuration and transport

    A shallow embedding of [src/index.ts] (the two tool handlers, the
    token schema, the minimum-token setting and [main]) and of
    [lib/config.ts] ([getContext7Config]), with the properties of the
    specification stated over it.

    Conventions.
    - A JavaScript string is a [string]; one [ascii] stands for one code
      unit, so [String.length] is the [.length] of the source.
    - A JavaScript number is a [Z] (token counts, ports); [None] in an
      [option Z] result of a conversion stands for [NaN].  The conversions
      of the platform between text and numbers ([Number], [parseInt],
      the text of a number beyond the safe integers) are parameters.
    - A call of an asynchronous function either returns or throws; the
      outcome is a [completion].  What the handler does to the outside world
      (console lines, calls of the remote API) is recorded in a trace. *)

From Stdlib Require Import ZArith Ascii String List Bool Lia.
From stdpp Require Import base option list strings gmap pretty.

(** ** JavaScript strings *)

Module JS.

Definition code (c : ascii) : nat := nat_of_ascii c.

Definition in_range (lo hi : nat) (c : ascii) : bool :=
  (lo <=? code c)%nat && (code c <=? hi)%nat.

(** [a-z], [A-Z], [0-9] *)
Definition lower (c : ascii) : bool := in_range 97 122 c.
Definition upper (c : ascii) : bool := in_range 65 90 c.
Definition digit (c : ascii) : bool := in_range 48 57 c.

Definition is_char (d c : ascii) : bool := (code c =? code d)%nat.

(** [s.replace(/[^...]/g, "")]: every code unit outside the class
    [keep] is deleted. *)
Fixpoint delete_outside (keep : ascii -> bool) (s : string) : string :=
  match s with
  | EmptyString => EmptyString
  | String c s' =>
      if keep c then String c (delete_outside keep s')
      else delete_outside keep s'
  end.

(** [s.includes(sub)] *)
Fixpoint includes (s sub : string) : bool :=
  String.prefix sub s
  || match s with
     | EmptyString => false
     | String _ s' => includes s' sub
     end.

(** [s.split(sep)] for a separator that is not empty.  [skip] counts the
    code units of a separator found earlier that are still to be passed
    over, [cur] is the piece read so far. *)
Fixpoint split_go (sep : string) (skip : nat) (cur s : string) : list string :=
  match s with
  | EmptyString => [cur]
  | String c s' =>
      match skip with
      | S k => split_go sep k cur s'
      | O =>
          if String.prefix sep s
          then cur :: split_go sep (String.length sep - 1) EmptyString s'
          else split_go sep 0 (cur +:+ String c EmptyString) s'
      end
  end.

Definition split (s sep : string) : list string := split_go sep 0 EmptyString s.

(** Truthiness of a string: only the empty string is falsy. *)
Definition truthy (s : string) : bool :=
  match s with EmptyString => false | _ => true end.

(** White space skipped by [parseInt] (the one-byte members of the class). *)
Definition white (c : ascii) : bool :=
  in_range 9 13 c || is_char " " c || (code c =? 160)%nat.

Fixpoint skip_white (s : string) : string :=
  match s with
  | String c s' => if white c then skip_white s' else s
  | EmptyString => EmptyString
  end.

(** The longest prefix of decimal digits, read as a number; [None] when
    there is no digit. *)
Fixpoint digits (acc : option Z) (s : string) : option Z :=
  match s with
  | String c s' =>
      if digit c
      then digits (Some (10 * default 0%Z acc + Z.of_nat (code c - 48))%Z) s'
      else acc
  | EmptyString => acc
  end.

(** [parseInt(s, 10)] where the run of digits is a safe integer: leading
    white space, an optional sign, then the longest run of digits; what
    follows is ignored.  [None] is [NaN].  A longer run is rounded by the
    platform, which this reading does not follow. *)
Definition parseInt10 (s : string) : option Z :=
  match skip_white s with
  | String "-" s' => Z.opp <$> digits None s'
  | String "+" s' => digits None s'
  | s' => digits None s'
  end.

(** [Number(s)] on the empty string and on a string of decimal digits;
    every other string is left to the general conversion and reads
    [None] here. *)
Definition decimal_literal (s : string) : option Z :=
  match s with
  | EmptyString => Some 0%Z
  | _ => if forallb digit (list_ascii_of_string s) then digits None s else None
  end.

End JS.

(** ** JavaScript values

    One type for everything that is handled dynamically: what
    [JSON.parse] returns, what the configuration object holds, what is
    thrown and what is handed to the logger. *)

#[local] Set Warnings "-register-all".

Inductive value : Type :=
| Undefined
| Null
| Bool (b : bool)
| NaN
| Num (n : Z)
| Str (s : string)
| Arr (l : list value)
| Obj (m : gmap string value)
| Err (name message : string).   (* an instance of Error *)

(** How a call that settles ends: a conversion, a function of the
    outside world, an awaited promise. *)
Inductive outcome (A : Type) : Type :=
| Returns (a : A)
| Throws (e : value).
Arguments Returns {A} a.
Arguments Throws {A} e.

Module Value.

(** ToBoolean *)
Definition truthy (v : value) : bool :=
  match v with
  | Undefined | Null | Bool false | NaN => false
  | Num n => negb (n =? 0)%Z
  | Str s => JS.truthy s
  | _ => true
  end.

(** [a || b] *)
Definition or_else (a b : value) : value := if truthy a then a else b.

(** [v === "..."] *)
Definition is_string (lit : string) (v : value) : bool :=
  match v with
  | Str s => bool_decide (s = lit)
  | _ => false
  end.

(** [o.k] for a configuration object: own properties only, a missing
    key reads [undefined]. *)
Definition get (o : gmap string value) (k : string) : value :=
  default Undefined (o !! k).

Fixpoint join (sep : string) (l : list string) : string :=
  match l with
  | [] => ""
  | [s] => s
  | s :: l' => s +:+ sep +:+ join sep l'
  end.

(** The integers that a double holds exactly and prints digit by digit. *)
Definition safe_integer (n : Z) : bool := (Z.abs n <=? 9007199254740991)%Z.

(** The TypeError of a conversion that finds no primitive. *)
Definition cannot_convert : value :=
  Err "TypeError" "Cannot convert object to primitive value".

(** ToString, as a template literal applies it.  A safe integer prints
    its digits; the text of a larger number (rounded digits, exponent
    form) is [Number_toString], the conversion of the platform.  An
    array joins its elements with a comma, [null] and [undefined] among
    them printing empty.  An object of data prints [[object Object]]
    unless it has an own property [toString]: that property is not a
    function, the inherited [valueOf] returns the object itself, and the
    conversion throws.  An Error prints by [Error.prototype.toString]. *)
Fixpoint to_string (Number_toString : Z -> string) (v : value) : outcome string :=
  match v with
  | Undefined => Returns "undefined"
  | Null => Returns "null"
  | Bool true => Returns "true"
  | Bool false => Returns "false"
  | NaN => Returns "NaN"
  | Num n => Returns (if safe_integer n then pretty n else Number_toString n)
  | Str s => Returns s
  | Arr l =>
      match
        (fix elements (l : list value) : outcome (list string) :=
           match l with
           | [] => Returns []
           | x :: l' =>
               match
                 match x with
                 | Undefined | Null => Returns ""
                 | _ => to_string Number_toString x
                 end
               with
               | Throws e => Throws e
               | Returns s =>
                   match elements l' with
                   | Throws e => Throws e
                   | Returns rest => Returns (s :: rest)
                   end
               end
           end) l
      with
      | Throws e => Throws e
      | Returns texts => Returns (join "," texts)
      end
  | Obj m =>
      match m !! "toString" with
      | Some _ => Throws cannot_convert
      | None => Returns "[object Object]"
      end
  | Err name message =>
      Returns match name, message with
              | EmptyString, _ => message
              | _, EmptyString => name
              | _, _ => name +:+ ": " +:+ message
              end
  end.

(** Stands for [Number_toString] in the runs that print no number beyond
    the safe integers, where the conversion is never consulted. *)
Definition no_large_number (n : Z) : string := "".

(** The [message] property of a value that is neither [null] nor
    [undefined]. *)
Definition message_of (v : value) : value :=
  match v with
  | Err _ message => Str message
  | Obj m => get m "message"
  | _ => Undefined
  end.

(** A conversion result as a value: [None] is [NaN]. *)
Definition of_number (n : option Z) : value :=
  match n with Some z => Num z | None => NaN end.

Definition nullish (v : value) : bool :=
  match v with Undefined | Null => true | _ => false end.

(** [v?.message] *)
Definition opt_message (v : value) : value :=
  if nullish v then Undefined else message_of v.

(** The TypeError of a property read on [null] or [undefined]. *)
Definition cannot_read (v : value) : value :=
  Err "TypeError"
      ("Cannot read properties of "
       +:+ match v with Null => "null" | _ => "undefined" end
       +:+ " (reading 'message')").

End Value.

(** ** Effects: completions, the trace, and sequencing *)

Module Api.
(** The options object handed to [fetchLibraryDocumentation]. *)
Record FetchOptions : Type := {
  tokens : Z;
  topic : string;
  folders : string;
  lang : value;
  python : value
}.
End Api.

Inductive transport : Type := Stdio | Http.

(** What the program does to the outside world, in order. *)
Inductive event : Type :=
| ConsoleLog (msg : string) (details : list (string * value))
| ConsoleWarn (msg : string) (arg : option value)
| ConsoleError (msg : string) (arg : option value)
| SearchLibraries (query : string)
| FetchLibraryDocumentation (libraryId : string) (options : Api.FetchOptions)
| ImportStreamableHttp
| NewTransport (t : transport) (host port : value)
| OnRequest
| ServerConnect (t : transport).

(** How a piece of the program ends: with a value, with an exception on
    its way up, with the process gone ([process.exit]), or never (the
    hourly wake-up loop of the HTTP branch). *)
Inductive completion (A : Type) : Type :=
| Normal (a : A)
| Throw (e : value)
| Exit (code : Z)
| Park.
Arguments Normal {A} a.
Arguments Throw {A} e.
Arguments Exit {A} code.
Arguments Park {A}.

Definition M (A : Type) : Type := list event * completion A.

Definition ret {A} (a : A) : M A := ([], Normal a).

Definition bind {A B} (m : M A) (k : A -> M B) : M B :=
  match m with
  | (tr, Normal a) => let (tr', r) := k a in (tr ++ tr', r)
  | (tr, Throw e) => (tr, Throw e)
  | (tr, Exit c) => (tr, Exit c)
  | (tr, Park) => (tr, Park)
  end.

Notation "x <- m ;; k" := (bind m (fun x => k))
  (at level 100, m at next level, right associativity).
Notation "m ;; k" := (bind m (fun _ => k))
  (at level 100, right associativity).

Definition emit (ev : event) : M unit := ([ev], Normal tt).
Definition throw {A} (e : value) : M A := ([], Throw e).
Definition process_exit {A} (code : Z) : M A := ([], Exit code).
Definition park {A} : M A := ([], Park).

(** [try { m } catch (e) { h e }] *)
Definition try_catch {A} (m : M A) (h : value -> M A) : M A :=
  match m with
  | (tr, Throw e) => let (tr', r) := h e in (tr ++ tr', r)
  | _ => m
  end.

(** A call of the outside world: the call is recorded, then its outcome
    is the completion. *)
Definition call {A} (ev : event) (o : outcome A) : M A :=
  ([ev], match o with Returns a => Normal a | Throws e => Throw e end).

(** An awaited promise or a call that leaves no mark of its own. *)
Definition await {A} (o : outcome A) : M A :=
  ([], match o with Returns a => Normal a | Throws e => Throw e end).

Definition trace {A} (m : M A) : list event := fst m.
Definition result {A} (m : M A) : completion A := snd m.

(** [logEvent(event, details)]: the time stamp put before the message is
    left out. *)
Definition logEvent (ev : string) (details : list (string * value)) : M unit :=
  emit (ConsoleLog ev details).

(** [e.message || e], which throws when [e] is [null] or [undefined]. *)
Definition message_or_self (e : value) : M value :=
  if Value.nullish e then throw (Value.cannot_read e)
  else ret (Value.or_else (Value.message_of e) e).

(** [e?.message || e] *)
Definition opt_message_or_self (e : value) : value :=
  Value.or_else (Value.opt_message e) e.

(** ** The response envelope *)

Record TextContent : Type := { type : string; text : string }.

Record Envelope : Type := {
  isError : bool;             (* a missing [isError] key reads false *)
  content : list TextContent
}.

Definition error_envelope (msg : string) : Envelope :=
  {| isError := true; content := [ {| type := "text"; text := msg |} ] |}.

Definition success_envelope (msg : string) : Envelope :=
  {| isError := false; content := [ {| type := "text"; text := msg |} ] |}.

(** The calls of the remote API in a trace. *)
Definition is_remote_call (ev : event) : bool :=
  match ev with
  | SearchLibraries _ | FetchLibraryDocumentation _ _ => true
  | _ => false
  end.

Definition remote_calls (tr : list event) : list event :=
  List.filter is_remote_call tr.

(** ** The minimum token count, read once from the environment *)

Definition minimum_tokens_warning : string :=
  "Warning: Invalid DEFAULT_MINIMUM_TOKENS value provided in environment variable. Using default value of 10000".

(** [env] is [process.env.DEFAULT_MINIMUM_TOKENS]; the result is the value
    of [DEFAULT_MINIMUM_TOKENS] after the start-up code, with the console
    lines written.  [parseInt] is [parseInt(s, 10)] of the platform, [None]
    for [NaN]. *)
Definition init_DEFAULT_MINIMUM_TOKENS (parseInt : string -> option Z)
    (env : option string) : M Z :=
  match env with
  | Some s =>
      if JS.truthy s then
        match parseInt s with
        | Some parsedValue =>
            if (0 <? parsedValue)%Z then ret parsedValue
            else (emit (ConsoleWarn minimum_tokens_warning None) ;; ret 10000%Z)
        | None => emit (ConsoleWarn minimum_tokens_warning None) ;; ret 10000%Z
        end
      else ret 10000%Z
  | None => ret 10000%Z
  end.

(** ** The schema of [tokens] *)

(** What the schema makes of a raw argument: a parsed value for the
    handler, or an issue (the handler is then not called). *)
Inductive parsed (A : Type) : Type :=
| Accepted (a : A)
| Issue.
Arguments Accepted {A} a.
Arguments Issue {A}.

Section Schema.

(** [Number(s)] on a string; [None] is [NaN]. *)
Variable Number : string -> option Z.
Variable DEFAULT_MINIMUM_TOKENS : Z.

(** [(val) => (typeof val === "string" ? Number(val) : val)] *)
Definition tokens_preprocess (val : value) : value :=
  match val with
  | Str s => Value.of_number (Number s)
  | _ => val
  end.

(** [(val) => (val < DEFAULT_MINIMUM_TOKENS ? DEFAULT_MINIMUM_TOKENS : val)] *)
Definition tokens_transform (val : Z) : Z :=
  if (val <? DEFAULT_MINIMUM_TOKENS)%Z then DEFAULT_MINIMUM_TOKENS else val.

(** [z.preprocess(..., z.number()).transform(...).optional()]: an absent
    value stays absent; anything else is preprocessed, must then be a
    number other than [NaN], and is transformed. *)
Definition tokens_schema (val : value) : parsed (option Z) :=
  match val with
  | Undefined => Accepted None
  | _ =>
      match tokens_preprocess val with
      | Num n => Accepted (Some (tokens_transform n))
      | _ => Issue
      end
  end.

End Schema.

(** ** The tool handlers *)

Record SearchResponse (R : Type) : Type := { results : option (list R) }.
Arguments results {R} _.

(** The class kept by the sanitiser of [libraryName]: [a-zA-Z0-9_\-\. ] *)
Definition name_class (c : ascii) : bool :=
  JS.lower c || JS.upper c || JS.digit c
  || JS.is_char "_" c || JS.is_char "-" c || JS.is_char "." c || JS.is_char " " c.

(** The class kept by the sanitiser of the library id: [a-zA-Z0-9_\-\/\.] *)
Definition id_class (c : ascii) : bool :=
  JS.lower c || JS.upper c || JS.digit c
  || JS.is_char "_" c || JS.is_char "-" c || JS.is_char "/" c || JS.is_char "." c.

Definition nl : string := String (ascii_of_nat 10) EmptyString.

Definition resolve_preamble : string :=
  "Available Libraries (top matches):" +:+ nl +:+ nl
  +:+ "Each result includes:" +:+ nl
  +:+ "- Library ID: Context7-compatible identifier (format: /org/repo)" +:+ nl
  +:+ "- Name: Library or package name" +:+ nl
  +:+ "- Description: Short summary" +:+ nl
  +:+ "- Code Snippets: Number of available code examples" +:+ nl
  +:+ "- GitHub Stars: Popularity indicator" +:+ nl +:+ nl
  +:+ "For best results, select libraries based on name match, popularity (stars), snippet coverage, and relevance to your use case."
  +:+ nl +:+ nl +:+ "---" +:+ nl +:+ nl.

Definition msg_invalid_name : string := "Invalid library name. Must be 2-100 characters.".
Definition msg_failed_to_retrieve : string :=
  "Failed to retrieve library documentation data from Context7".
Definition msg_no_libraries : string := "No documentation libraries available".
Definition msg_invalid_id : string := "Invalid Context7-compatible library ID.".
Definition msg_token_range : string := "Token count must be between 100 and 100000.".
Definition msg_not_found : string :=
  "Documentation not found or not finalized for this library. This might have happened because you used an invalid Context7-compatible library ID. To get a valid Context7-compatible library ID, use the 'resolve-library-id' with the package name you wish to retrieve documentation for.".

Definition of_optional (s : option string) : value :=
  match s with Some x => Str x | None => Undefined end.

(** An optional string argument that is present and not empty, which is
    when [arg || fallback] is [arg]. *)
Definition given (s : option string) : bool :=
  match s with Some x => JS.truthy x | None => false end.

Section Handlers.

(** [Number.prototype.toString] beyond the safe integers. *)
Variable Number_toString : Z -> string.
Variable DEFAULT_MINIMUM_TOKENS : Z.
Variable context7Config : gmap string value.

(** The remote API ([lib/api]) and the formatter ([lib/utils]). *)
Variable SearchResult : Type.
Variable searchLibraries : string -> outcome (option (SearchResponse SearchResult)).
Variable formatSearchResults : SearchResponse SearchResult -> outcome string.
Variable fetchLibraryDocumentation :
  string -> Api.FetchOptions -> outcome (option string).

Definition resolve_no_results (searchQuery : string) : M Envelope :=
  logEvent "resolve-library-id error: no results" [("searchQuery", Str searchQuery)] ;;
  ret (error_envelope msg_failed_to_retrieve).

(** The query sent to the search: the sanitised name, or, when nothing
    of the name is left, the template of the default language and
    version, whose two conversions can throw. *)
Definition search_query (libraryName : string) : outcome string :=
  let safeLibraryName := JS.delete_outside name_class libraryName in
  if JS.truthy safeLibraryName then Returns safeLibraryName
  else
    match Value.to_string Number_toString (Value.get context7Config "defaultLang") with
    | Throws e => Throws e
    | Returns defaultLang =>
        match Value.to_string Number_toString
                (Value.get context7Config "defaultVersion") with
        | Throws e => Throws e
        | Returns defaultVersion => Returns (defaultLang +:+ " " +:+ defaultVersion)
        end
    end.

Definition resolve_library_id (libraryName : string) : M Envelope :=
  logEvent "resolve-library-id invoked" [("libraryName", Str libraryName)] ;;
  if (String.length libraryName <? 2)%nat || (100 <? String.length libraryName)%nat
  then
    (logEvent "resolve-library-id error: invalid libraryName"
              [("libraryName", Str libraryName)] ;;
     ret (error_envelope msg_invalid_name))
  else
    searchQuery <- await (search_query libraryName) ;;
    try_catch
      (searchResponse <- call (SearchLibraries searchQuery) (searchLibraries searchQuery) ;;
       match searchResponse with
       | None => resolve_no_results searchQuery
       | Some response =>
           match results response with
           | None => resolve_no_results searchQuery
           | Some [] =>
               logEvent "resolve-library-id error: empty results"
                        [("searchQuery", Str searchQuery)] ;;
               ret (error_envelope msg_no_libraries)
           | Some (_ :: _) =>
               resultsText <- await (formatSearchResults response) ;;
               logEvent "resolve-library-id success" [("searchQuery", Str searchQuery)] ;;
               ret (success_envelope (resolve_preamble +:+ resultsText))
           end
       end)
      (fun err =>
         logEvent "resolve-library-id error: exception"
                  [("error", opt_message_or_self err)] ;;
         shown <- await (Value.to_string Number_toString (opt_message_or_self err)) ;;
         ret (error_envelope ("Error: " +:+ shown))).

(** [!documentationText] *)
Definition no_text (t : option string) : bool :=
  match t with
  | Some s => negb (JS.truthy s)
  | None => true
  end.

(** [tokens && (tokens < 100 || tokens > 100000)] *)
Definition tokens_out_of_range (tokens : Z) : bool :=
  negb (tokens =? 0)%Z && ((tokens <? 100)%Z || (100000 <? tokens)%Z).

(** The sanitised id, split at the folder marker when it has one: the
    first two pieces of the split are the id and the folders. *)
Definition split_folders (safeLibraryId : string) : string * string :=
  if JS.includes safeLibraryId "?folders="
  then
    let pieces := JS.split safeLibraryId "?folders=" in
    (default "" (pieces !! 0%nat), default "" (pieces !! 1%nat))
  else (safeLibraryId, "").

Definition effective_lang (lang : option string) : value :=
  Value.or_else (of_optional lang) (Value.get context7Config "defaultLang").

Definition effective_python (lang python : option string) : value :=
  Value.or_else (of_optional python)
    (if Value.is_string "python" (effective_lang lang)
     then Value.get context7Config "defaultVersion"
     else Undefined).

Definition get_library_docs (context7CompatibleLibraryID : string)
    (tokens_arg : option Z) (topic_arg lang python : option string) : M Envelope :=
  let tokens := default DEFAULT_MINIMUM_TOKENS tokens_arg in
  let topic := default "" topic_arg in
  logEvent "get-library-docs invoked"
           [("context7CompatibleLibraryID", Str context7CompatibleLibraryID);
            ("tokens", Num tokens); ("topic", Str topic);
            ("lang", of_optional lang); ("python", of_optional python)] ;;
  if (String.length context7CompatibleLibraryID <? 3)%nat
  then
    (logEvent "get-library-docs error: invalid library ID"
              [("context7CompatibleLibraryID", Str context7CompatibleLibraryID)] ;;
     ret (error_envelope msg_invalid_id))
  else if tokens_out_of_range tokens
  then
    (logEvent "get-library-docs error: invalid tokens" [("tokens", Num tokens)] ;;
     ret (error_envelope msg_token_range))
  else
    let safeLibraryId := JS.delete_outside id_class context7CompatibleLibraryID in
    let (libraryId, folders) := split_folders safeLibraryId in
    let effectiveLang := effective_lang lang in
    let effectivePython := effective_python lang python in
    let options :=
      {| Api.tokens := tokens; Api.topic := topic; Api.folders := folders;
         Api.lang := effectiveLang; Api.python := effectivePython |} in
    let details :=
      [("libraryId", Str libraryId); ("tokens", Num tokens); ("topic", Str topic);
       ("lang", effectiveLang); ("python", effectivePython)] in
    try_catch
      (documentationText <-
         call (FetchLibraryDocumentation libraryId options)
              (fetchLibraryDocumentation libraryId options) ;;
       if no_text documentationText
       then
         (logEvent "get-library-docs error: not found" details ;;
          ret (error_envelope msg_not_found))
       else
         (logEvent "get-library-docs success" details ;;
          ret (success_envelope (default "" documentationText))))
      (fun error =>
         logEvent "get-library-docs error: exception"
                  [("error", opt_message_or_self error)] ;;
         shown <- message_or_self error ;;
         text <- await (Value.to_string Number_toString shown) ;;
         ret (error_envelope ("Error: " +:+ text))).

(** The options object of a request whose id is not split: the folders
    stay empty. *)
Definition docs_options (tokens_arg : option Z) (topic_arg lang python : option string)
  : Api.FetchOptions :=
  {| Api.tokens := default DEFAULT_MINIMUM_TOKENS tokens_arg;
     Api.topic := default "" topic_arg;
     Api.folders := "";
     Api.lang := effective_lang lang;
     Api.python := effective_python lang python |}.

End Handlers.

(** ** Loading the project configuration ([lib/config.ts]) *)

Module Config.

Definition DEFAULT_CONFIG : gmap string value :=
  {[ "defaultLang" := Str "python";
     "defaultVersion" := Str "3.11";
     "supportedLangs" := Arr [Str "python"];
     "supportedVersions" := Obj {[ "python" := Arr [Str "3.11"] ]} ]}.

(** The own enumerable properties that [...v] copies into an object
    literal: those of an object, the indexed elements of an array, the
    indexed code units of a string, and nothing for the other values. *)
Definition spread (v : value) : gmap string value :=
  match v with
  | Obj m => m
  | Arr l => list_to_map (imap (fun i x => (pretty i, x)) l)
  | Str s =>
      list_to_map
        (imap (fun i c => (pretty i, Str (String c EmptyString)))
              (list_ascii_of_string s))
  | _ => ∅
  end.

(** [{ ...DEFAULT_CONFIG, ...doc }]: the later spread wins. *)
Definition merge (doc : value) : gmap string value :=
  spread doc ∪ DEFAULT_CONFIG.

(** The state of [.context7rc.json] in the working directory:
    [fs.existsSync] is false for [NoFile]; [fs.readFileSync] throws for
    [Unreadable] and returns the text of [Content]. *)
Inductive config_file : Type :=
| NoFile
| Unreadable (e : value)
| Content (raw : string).

Definition existsSync (f : config_file) : bool :=
  match f with NoFile => false | _ => true end.

Definition readFileSync (f : config_file) : outcome string :=
  match f with
  | Content raw => Returns raw
  | Unreadable e => Throws e
  | NoFile => Throws (Err "Error" "ENOENT: no such file or directory")
  end.

Definition parse_warning : string := "Failed to parse .context7rc.json, using defaults".

Section Load.

(** [JSON.parse]: the parsed document, or the SyntaxError thrown. *)
Variable JSON_parse : string -> outcome value.

Definition getContext7Config (f : config_file) : M (gmap string value) :=
  merged <-
    (if existsSync f
     then
       try_catch
         (raw <- await (readFileSync f) ;;
          doc <- await (JSON_parse raw) ;;
          ret (Some (merge doc)))
         (fun e => emit (ConsoleWarn parse_warning (Some e)) ;; ret None)
     else ret None) ;;
  match merged with
  | Some config => ret config
  | None => ret DEFAULT_CONFIG
  end.

End Load.

End Config.

(** ** Choosing and starting the transport ([main]) *)

Module Transport.

(** [argv.includes(x)] *)
Definition array_includes (x : string) (argv : list string) : bool :=
  existsb (fun a => bool_decide (a = x)) argv.

(** [argv.indexOf(x)], -1 when [x] does not occur *)
Fixpoint indexOf (x : string) (argv : list string) : Z :=
  match argv with
  | [] => (-1)%Z
  | a :: rest =>
      if bool_decide (a = x) then 0%Z
      else let i := indexOf x rest in if (i <? 0)%Z then (-1)%Z else (i + 1)%Z
  end.

(** [argv[i]], [None] for [undefined] *)
Definition at_index (argv : list string) (i : Z) : option string :=
  if (i <? 0)%Z then None else argv !! Z.to_nat i.

(** [argv.find((arg, i, arr) => arg === flag && arr[i+1])] finds
    something: some occurrence of the flag is followed by a string that
    is not empty. *)
Fixpoint finds_flag (flag : string) (argv : list string) : bool :=
  match argv with
  | [] => false
  | arg :: rest =>
      (bool_decide (arg = flag)
       && match rest with next :: _ => JS.truthy next | [] => false end)
      || finds_flag flag rest
  end.

Definition useHttp (TRANSPORT : option string) (argv : list string) : bool :=
  bool_decide (TRANSPORT = Some "http")
  || (array_includes "--transport" argv
      && bool_decide (at_index argv (indexOf "--transport" argv + 1) = Some "http")).

Definition msg_no_export : string :=
  "StreamableHTTPServerTransport not found in module exports".
Definition msg_fatal_http : string :=
  "FATAL: Could not load HTTP transport for MCP server. Is @modelcontextprotocol/sdk installed and built correctly?".
Definition msg_fatal_main : string := "Fatal error in main():".
Definition msg_running_stdio : string :=
  "Context7 Documentation MCP Server running on stdio".

Section Main.

Variable Number_toString : Z -> string.
Variable Number : string -> option Z.
Variable TRANSPORT : option string.     (* process.env.TRANSPORT *)
Variable argv : list string.            (* process.argv *)

(** The SDK.  The dynamic import loads the module or throws; [true]
    says that the module exports [StreamableHTTPServerTransport].  The
    constructor builds a transport or throws; [true] says that the
    transport has a method [on]. *)
Variable import_streamableHttp : outcome bool.
Variable new_HttpServerTransport : value -> value -> outcome bool.
Variable transport_on : outcome unit.
Variable new_StdioServerTransport : outcome unit.
Variable server_connect : transport -> outcome unit.

Definition hostArg : value :=
  if finds_flag "--host" argv
  then of_optional (at_index argv (indexOf "--host" argv + 1))
  else Str "0.0.0.0".

Definition portArg : value :=
  if finds_flag "--port" argv
  then match at_index argv (indexOf "--port" argv + 1) with
       | Some s => Value.of_number (Number s)
       | None => NaN
       end
  else Num 9700.

(** The text of [http://${hostArg}:${portArg}] *)
Definition http_address : outcome string :=
  match Value.to_string Number_toString hostArg with
  | Throws e => Throws e
  | Returns host =>
      match Value.to_string Number_toString portArg with
      | Throws e => Throws e
      | Returns port => Returns ("http://" +:+ host +:+ ":" +:+ port)
      end
  end.

Definition main : M unit :=
  if useHttp TRANSPORT argv
  then
    try_catch
      (exported <- call ImportStreamableHttp import_streamableHttp ;;
       (if exported : bool then ret tt else throw (Err "Error" msg_no_export)) ;;
       has_on <- call (NewTransport Http hostArg portArg)
                      (new_HttpServerTransport hostArg portArg) ;;
       created <- await http_address ;;
       emit (ConsoleError ("[LOG] HTTP Server Transport created at " +:+ created)
                          None) ;;
       (if has_on : bool then call OnRequest transport_on else ret tt) ;;
       call (ServerConnect Http) (server_connect Http) ;;
       running <- await http_address ;;
       emit (ConsoleError
               ("Context7 Documentation MCP Server running on " +:+ running)
               None) ;;
       park)
      (fun e => emit (ConsoleError msg_fatal_http (Some e)) ;; process_exit 1%Z)
  else
    (call (NewTransport Stdio Undefined Undefined) new_StdioServerTransport ;;
     call (ServerConnect Stdio) (server_connect Stdio) ;;
     emit (ConsoleError msg_running_stdio None)).

(** [main().catch(...)], the last statement of the program. *)
Definition run : M unit :=
  try_catch main
    (fun error => emit (ConsoleError msg_fatal_main (Some error)) ;; process_exit 1%Z).

End Main.

(** An event that sets up or connects the standard-stream transport. *)
Definition uses_stdio (ev : event) : bool :=
  match ev with
  | NewTransport Stdio _ _ | ServerConnect Stdio => true
  | _ => false
  end.

(** An event that binds the tool registry to a transport. *)
Definition connects (ev : event) : bool :=
  match ev with ServerConnect _ => true | _ => false end.

(** The HTTP capability cannot be had: the import throws, or the module
    lacks the export, or the constructor throws. *)
Definition http_unavailable (imported constructed : outcome bool) : bool :=
  match imported with
  | Throws _ | Returns false => true
  | Returns true =>
      match constructed with Throws _ => true | Returns _ => false end
  end.

End Transport.

(** ** Reading a trace *)



Definition is_search (ev : event) : bool :=
  match ev with SearchLibraries _ => true | _ => false end.

Definition is_fetch (ev : event) : bool :=
  match ev with FetchLibraryDocumentation _ _ => true | _ => false end.

(** An event of the HTTP branch of [main]: the import, the constructor,
    the request observer, the connection. *)
Definition uses_http (ev : event) : bool :=
  match ev with
  | ImportStreamableHttp | NewTransport Http _ _ | OnRequest | ServerConnect Http => true
  | _ => false
  end.

(** * Properties *)

(** ** The string primitives on small inputs *)

Example split_two : JS.split "a?folders=b" "?folders=" = ["a"; "b"].
Proof. reflexivity. Qed.

Example split_three : JS.split "a?folders=b?folders=c" "?folders=" = ["a"; "b"; "c"].
Proof. reflexivity. Qed.

Example split_none : JS.split "abc" "?folders=" = ["abc"].
Proof. reflexivity. Qed.

Example includes_marker : JS.includes "x/y?folders=z" "?folders=" = true.
Proof. reflexivity. Qed.

Example parseInt_examples :
  JS.parseInt10 "50" = Some 50%Z /\ JS.parseInt10 " 20000tokens" = Some 20000%Z
  /\ JS.parseInt10 "-5" = Some (-5)%Z /\ JS.parseInt10 "abc" = None.
Proof. repeat split; reflexivity. Qed.

Example to_string_examples (Number_toString : Z -> string) :
  Value.to_string Number_toString (Err "Error" "boom") = Returns "Error: boom"
  /\ Value.to_string Number_toString (Arr [Str "a"; Null; Num 3; Arr [Num 1; Obj ∅]])
     = Returns "a,,3,1,[object Object]"
  /\ Value.to_string Number_toString (Num (-12)) = Returns "-12"
  /\ Value.to_string Number_toString (Num (10 ^ 21)%Z)
     = Returns (Number_toString (10 ^ 21)%Z)
  /\ Value.to_string Number_toString (Obj {[ "toString" := Num 1 ]})
     = Throws Value.cannot_convert
  /\ Value.to_string Number_toString (Arr [Str "a"; Obj {[ "toString" := Null ]}])
     = Throws Value.cannot_convert.
Proof. repeat split; reflexivity. Qed.

Example sanitise_name_example :
  JS.delete_outside name_class "next.js (v15)!" = "next.js v15".
Proof. reflexivity. Qed.

Example decimal_literal_examples :
  JS.decimal_literal "50" = Some 50%Z /\ JS.decimal_literal "5x" = None.
Proof. split; reflexivity. Qed.

(** ** What the sanitiser leaves *)

Lemma delete_outside_kept (keep : ascii -> bool) (s : string) :
  forallb keep (list_ascii_of_string (JS.delete_outside keep s)) = true.
Proof.
  induction s as [|c s IH]; simpl; [reflexivity|].
  destruct (keep c) eqn:Hc; simpl; [rewrite Hc|]; exact IH.
Qed.

Lemma delete_outside_length (keep : ascii -> bool) (s : string) :
  (String.length (JS.delete_outside keep s) <= String.length s)%nat.
Proof.
  induction s as [|c s IH]; simpl; [lia|].
  destruct (keep c); simpl; lia.
Qed.

Lemma includes_first_unit (s sub : string) (c : ascii) :
  JS.includes s (String c sub) = true -> In c (list_ascii_of_string s).
Proof.
  induction s as [|a s IH]; simpl; [discriminate|].
  destruct (ascii_dec c a) as [->|Hne]; [left; reflexivity|].
  simpl. intros H. right. apply IH. exact H.
Qed.

(** No string that went through a sanitiser whose class excludes the
    first code unit of [sub] includes [sub]. *)
Lemma sanitised_excludes (keep : ascii -> bool) (s sub : string) (c : ascii) :
  keep c = false ->
  JS.includes (JS.delete_outside keep s) (String c sub) = false.
Proof.
  intros Hc. destruct (JS.includes _ _) eqn:Hinc; [|reflexivity].
  apply includes_first_unit in Hinc.
  pose proof (delete_outside_kept keep s) as Hall.
  rewrite forallb_forall in Hall. apply Hall in Hinc. congruence.
Qed.

(** The sanitised library id never holds the folder marker, so the
    branch that splits it is never taken. *)
Lemma sanitised_id_has_no_marker (s : string) :
  JS.includes (JS.delete_outside id_class s) "?folders=" = false.
Proof. apply sanitised_excludes. reflexivity. Qed.

Lemma split_folders_sanitised (s : string) :
  split_folders (JS.delete_outside id_class s) = (JS.delete_outside id_class s, "").
Proof. unfold split_folders. rewrite sanitised_id_has_no_marker. reflexivity. Qed.

(** ** The remote calls of the handlers *)

Ltac step_handler :=
  unfold bind, try_catch, call, await, logEvent, emit, ret, throw, trace, result,
    remote_calls, message_or_self; simpl.

Section HandlerFacts.

Variable Number_toString : Z -> string.
Variable DEFAULT_MINIMUM_TOKENS : Z.
Variable context7Config : gmap string value.
Variable SearchResult : Type.
Variable searchLibraries : string -> outcome (option (SearchResponse SearchResult)).
Variable formatSearchResults : SearchResponse SearchResult -> outcome string.
Variable fetchLibraryDocumentation :
  string -> Api.FetchOptions -> outcome (option string).

Let docs := get_library_docs Number_toString DEFAULT_MINIMUM_TOKENS context7Config
              fetchLibraryDocumentation.
Let resolve := resolve_library_id Number_toString context7Config SearchResult
                 searchLibraries formatSearchResults.

(** The docs handler calls the remote API at most once: not at all when
    the raw id is shorter than 3 or the token count is out of range, and
    otherwise once, with the sanitised id and the resolved options. *)
Lemma get_library_docs_remote_calls id tokens_arg topic_arg lang python :
  remote_calls (trace (docs id tokens_arg topic_arg lang python)) =
  if (String.length id <? 3)%nat
     || tokens_out_of_range (default DEFAULT_MINIMUM_TOKENS tokens_arg)
  then []
  else [FetchLibraryDocumentation (JS.delete_outside id_class id)
          (docs_options DEFAULT_MINIMUM_TOKENS context7Config
             tokens_arg topic_arg lang python)].
Proof.
  subst docs. unfold get_library_docs, docs_options.
  destruct (String.length id <? 3)%nat; [reflexivity|].
  destruct (tokens_out_of_range _); [reflexivity|].
  rewrite split_folders_sanitised.
  step_handler.
  destruct (fetchLibraryDocumentation _ _) as [t|e]; simpl.
  - destruct (no_text t); reflexivity.
  - destruct (Value.nullish e); simpl; [reflexivity|].
    destruct (Value.to_string _ _); reflexivity.
Qed.

(** The resolve handler calls the remote API at most once: not at all
    when the length of the name is outside 2..100 or the query cannot be
    built. *)
Lemma resolve_library_id_remote_calls libraryName :
  remote_calls (trace (resolve libraryName)) =
  if (String.length libraryName <? 2)%nat || (100 <? String.length libraryName)%nat
  then []
  else match search_query Number_toString context7Config libraryName with
       | Returns searchQuery => [SearchLibraries searchQuery]
       | Throws _ => []
       end.
Proof.
  subst resolve. unfold resolve_library_id, resolve_no_results.
  destruct (_ || _); [reflexivity|].
  step_handler.
  destruct (search_query _ _ _) as [searchQuery|e]; simpl; [|reflexivity].
  destruct (searchLibraries _) as [[r|]|e]; simpl; try reflexivity.
  - destruct (results r) as [[|x l]|]; simpl; try reflexivity.
    destruct (formatSearchResults r) as [text|e]; simpl; [reflexivity|].
    destruct (Value.to_string _ _); reflexivity.
  - destruct (Value.to_string _ _); reflexivity.
Qed.

(** The docs handler ends with an envelope when the remote call returns,
    and when what it throws is an Error with a message. *)
Lemma get_library_docs_returns id tokens_arg topic_arg lang python :
  (forall libraryId options e,
      fetchLibraryDocumentation libraryId options = Throws e ->
      exists name message, e = Err name message /\ message <> "") ->
  exists envelope, result (docs id tokens_arg topic_arg lang python) = Normal envelope.
Proof.
  intros Hthrown. subst docs. unfold get_library_docs.
  destruct (String.length id <? 3)%nat; [eexists; reflexivity|].
  destruct (tokens_out_of_range _); [eexists; reflexivity|].
  rewrite split_folders_sanitised.
  step_handler.
  destruct (fetchLibraryDocumentation _ _) as [t|e] eqn:Hf; simpl.
  - destruct (no_text t); eexists; reflexivity.
  - destruct (Hthrown _ _ _ Hf) as (name & message & -> & Hm).
    destruct message; [congruence|]. eexists; reflexivity.
Qed.

End HandlerFacts.

(** ** Failures at the handler boundary *)

(** C1: every call of a handler should end with an envelope.  The docs
    handler does not when the remote call is rejected with [undefined]:
    its catch block logs [error?.message || error] and then reads
    [error.message] without the guard, so a TypeError leaves the handler.
    (The resolve handler guards both reads, see
    [resolve_undefined_rejection_contained].) *)
Theorem get_library_docs_undefined_rejection_escapes (Number_toString : Z -> string) :
  result (get_library_docs Number_toString 10000 Config.DEFAULT_CONFIG
            (fun _ _ => Throws Undefined) "react" None None None None)
  = Throw (Err "TypeError" "Cannot read properties of undefined (reading 'message')").
Proof. reflexivity. Qed.

(** The same rejection is turned into an envelope by the resolve handler. *)
Example resolve_undefined_rejection_contained :
  result (resolve_library_id Value.no_large_number Config.DEFAULT_CONFIG unit
            (fun _ => Throws Undefined) (fun _ => Returns "") "react")
  = Normal (error_envelope "Error: undefined").
Proof. reflexivity. Qed.

(** ** Token counts *)

(** C2, as stated, fails when the configured minimum is below 100: with
    [DEFAULT_MINIMUM_TOKENS=50] in the environment a request for 10
    tokens is raised to 50 and then refused by the lower bound of the
    range check. *)
Lemma tokens_below_low_minimum_rejected :
  result (init_DEFAULT_MINIMUM_TOKENS JS.parseInt10 (Some "50")) = Normal 50%Z
  /\ tokens_schema JS.decimal_literal 50 (Num 10) = Accepted (Some 50%Z)
  /\ result (get_library_docs Value.no_large_number 50 Config.DEFAULT_CONFIG
               (fun _ _ => Returns (Some "docs")) "react" (Some 50%Z) None None None)
     = Normal (error_envelope msg_token_range)
  /\ remote_calls (trace (get_library_docs Value.no_large_number 50 Config.DEFAULT_CONFIG
               (fun _ _ => Returns (Some "docs")) "react" (Some 50%Z) None None None))
     = [].
Proof. repeat split; reflexivity. Qed.

Lemma tokens_out_of_range_clamped (minimum n : Z) :
  (100 <= minimum)%Z ->
  (Z.max n minimum <? 100)%Z = false
  /\ tokens_out_of_range (Z.max n minimum) = (100000 <? Z.max n minimum)%Z.
Proof.
  intros H. unfold tokens_out_of_range.
  assert (Hlow : (Z.max n minimum <? 100)%Z = false) by (apply Z.ltb_ge; lia).
  split; [exact Hlow|]. rewrite Hlow.
  destruct (Z.eqb_spec (Z.max n minimum) 0) as [H0|H0]; [lia|reflexivity].
Qed.

Lemma tokens_transform_max (minimum n : Z) :
  tokens_transform minimum n = Z.max n minimum.
Proof. unfold tokens_transform. destruct (Z.ltb_spec n minimum); lia. Qed.

(** C2 (amended): with a configured minimum of at least 100, a supplied
    token count (a number, or a string that [Number] reads as one) is
    coerced and raised to the minimum when below it; the lower bound of
    the range check cannot fail on the clamped value, so a request is
    never refused for being low and only the upper bound refuses; a
    refused request does not reach the remote call, an accepted one
    does, with the clamped count.  With a minimum of at most 100000 the
    refused requests are those that asked for more than 100000. *)
Theorem tokens_clamped_then_checked (Number_toString : Z -> string)
    (Number : string -> option Z) (minimum : Z)
    (context7Config : gmap string value)
    (fetchLibraryDocumentation : string -> Api.FetchOptions -> outcome (option string))
    (val : value) (n : Z) (id : string) (topic lang python : option string) :
  (100 <= minimum)%Z ->
  tokens_preprocess Number val = Num n ->
  (3 <= String.length id)%nat ->
  let clamped := Z.max n minimum in
  let run := get_library_docs Number_toString minimum context7Config fetchLibraryDocumentation
               id (Some clamped) topic lang python in
  tokens_schema Number minimum val = Accepted (Some clamped)
  /\ ((n < minimum)%Z -> clamped = minimum)
  /\ (clamped <? 100)%Z = false
  /\ tokens_out_of_range clamped = (100000 <? clamped)%Z
  /\ (if (100000 <? clamped)%Z
      then result run = Normal (error_envelope msg_token_range)
           /\ remote_calls (trace run) = []
      else remote_calls (trace run) =
           [FetchLibraryDocumentation (JS.delete_outside id_class id)
              (docs_options minimum context7Config (Some clamped) topic lang python)])
  /\ ((minimum <= 100000)%Z -> (100000 <? clamped)%Z = (100000 <? n)%Z).
Proof.
  intros Hmin Hval Hid clamped run.
  assert (Hlen : (String.length id <? 3)%nat = false) by (apply Nat.ltb_ge; lia).
  destruct (tokens_out_of_range_clamped minimum n Hmin) as [Hlow Hrange].
  fold clamped in Hlow, Hrange.
  repeat apply conj.
  - unfold tokens_schema. rewrite Hval, tokens_transform_max.
    destruct val; try reflexivity. discriminate Hval.
  - intros Hlt. subst clamped. lia.
  - exact Hlow.
  - exact Hrange.
  - subst run. rewrite get_library_docs_remote_calls. rewrite Hlen. simpl.
    rewrite Hrange.
    destruct (100000 <? clamped)%Z eqn:Hn; [|reflexivity].
    split; [|reflexivity].
    unfold get_library_docs. rewrite Hlen. simpl. rewrite Hrange. reflexivity.
  - intros Hhi. subst clamped.
    destruct (Z.ltb_spec 100000 n); [apply Z.ltb_lt|apply Z.ltb_ge]; lia.
Qed.

Lemma tokens_clamped_then_checked_witness :
  (100 <= 10000)%Z
  /\ tokens_preprocess JS.decimal_literal (Str "50") = Num 50
  /\ (3 <= String.length "react")%nat
  /\ tokens_schema JS.decimal_literal 10000 (Str "50") = Accepted (Some 10000%Z)
  /\ remote_calls (trace (get_library_docs Value.no_large_number 10000 Config.DEFAULT_CONFIG
                            (fun _ _ => Returns (Some "docs"))
                            "react" (Some 10000%Z) None None None))
     = [FetchLibraryDocumentation "react"
          (docs_options 10000 Config.DEFAULT_CONFIG (Some 10000%Z) None None None)].
Proof.
  assert (H1 : (100 <= 10000)%Z) by lia.
  assert (H2 : tokens_preprocess JS.decimal_literal (Str "50") = Num 50) by reflexivity.
  assert (H3 : (3 <= String.length "react")%nat) by (simpl; lia).
  destruct (tokens_clamped_then_checked Value.no_large_number JS.decimal_literal 10000 Config.DEFAULT_CONFIG
              (fun _ _ => Returns (Some "docs")) (Str "50") 50 "react" None None None
              H1 H2 H3) as (Hs & _ & _ & _ & Hrun & _).
  repeat split; try assumption; try lia.
Defined.

(** The three examples given for the token count, under the default minimum of 10000. *)
Example tokens_examples :
  let run t := get_library_docs Value.no_large_number 10000 Config.DEFAULT_CONFIG
                 (fun _ _ => Returns (Some "docs")) "react" t None None None in
  tokens_schema JS.decimal_literal 10000 (Num 200000) = Accepted (Some 200000%Z)
  /\ result (run (Some 200000%Z)) = Normal (error_envelope msg_token_range)
  /\ tokens_schema JS.decimal_literal 10000 (Num 100000) = Accepted (Some 100000%Z)
  /\ result (run (Some 100000%Z)) = Normal (success_envelope "docs")
  /\ tokens_schema JS.decimal_literal 10000 (Str "50") = Accepted (Some 10000%Z)
  /\ result (run (Some 10000%Z)) = Normal (success_envelope "docs").
Proof. repeat split; reflexivity. Qed.

(** ** The folder marker *)

(** C3: the id [react!!js?folders=/hooks] should end as id [reactjs] with
    folders [/hooks].  The sanitiser runs first and deletes [?] and [=]
    with the rest, so the marker is gone before it is looked for: the
    whole sanitised string is sent as the id and the folders stay empty
    (for every id, by [sanitised_id_has_no_marker]). *)
Theorem folders_marker_lost_in_sanitising (Number_toString : Z -> string) :
  JS.delete_outside id_class "react!!js?folders=/hooks" = "reactjsfolders/hooks"
  /\ split_folders "reactjsfolders/hooks" = ("reactjsfolders/hooks", "")
  /\ remote_calls (trace (get_library_docs Number_toString 10000 Config.DEFAULT_CONFIG
                            (fun _ _ => Returns (Some "docs"))
                            "react!!js?folders=/hooks" None None None None))
     = [FetchLibraryDocumentation "reactjsfolders/hooks"
          {| Api.tokens := 10000; Api.topic := ""; Api.folders := "";
             Api.lang := Str "python"; Api.python := Str "3.11" |}].
Proof. repeat split; reflexivity. Qed.

(** What the split would do with a string that still held the marker. *)
Example split_folders_on_marker :
  split_folders "reactjs?folders=/hooks" = ("reactjs", "/hooks").
Proof. reflexivity. Qed.

(** ** Validation before the remote call *)

(** C4: a library name shorter than 2 or longer than 100 gets the
    invalid-name error envelope, and the search is not called. *)
Theorem resolve_rejects_bad_length (Number_toString : Z -> string)
    (context7Config : gmap string value) (SearchResult : Type)
    (searchLibraries : string -> outcome (option (SearchResponse SearchResult)))
    (formatSearchResults : SearchResponse SearchResult -> outcome string)
    (libraryName : string) :
  (String.length libraryName < 2 \/ 100 < String.length libraryName)%nat ->
  let run := resolve_library_id Number_toString context7Config SearchResult searchLibraries
               formatSearchResults libraryName in
  result run = Normal (error_envelope msg_invalid_name)
  /\ isError (error_envelope msg_invalid_name) = true
  /\ remote_calls (trace run) = [].
Proof.
  intros Hlen run.
  assert (Hbad : (String.length libraryName <? 2)%nat
                 || (100 <? String.length libraryName)%nat = true).
  { apply orb_true_iff. destruct Hlen; [left|right]; apply Nat.ltb_lt; assumption. }
  subst run. rewrite resolve_library_id_remote_calls.
  unfold resolve_library_id. rewrite Hbad. repeat split; reflexivity.
Qed.

Lemma resolve_rejects_bad_length_witness :
  (String.length "a" < 2 \/ 100 < String.length "a")%nat
  /\ result (resolve_library_id Value.no_large_number Config.DEFAULT_CONFIG unit
               (fun _ => Returns None) (fun _ => Returns "") "a")
     = Normal (error_envelope msg_invalid_name)
  /\ remote_calls (trace (resolve_library_id Value.no_large_number Config.DEFAULT_CONFIG unit
               (fun _ => Returns None) (fun _ => Returns "") "a")) = [].
Proof.
  assert (H : (String.length "a" < 2 \/ 100 < String.length "a")%nat)
    by (left; simpl; lia).
  destruct (resolve_rejects_bad_length Value.no_large_number Config.DEFAULT_CONFIG unit
              (fun _ => Returns None) (fun _ => Returns "") "a" H) as (Hr & _ & Hc).
  repeat split; assumption.
Defined.

(** The ends of the accepted range: 2 and 100 code units go to the search. *)
Example resolve_accepts_range_ends :
  let calls name :=
    remote_calls (trace (resolve_library_id Value.no_large_number Config.DEFAULT_CONFIG unit
                           (fun _ => Returns None) (fun _ => Returns "") name)) in
  calls "ab" = [SearchLibraries "ab"]
  /\ calls (String.concat "" (repeat "a" 100))
     = [SearchLibraries (String.concat "" (repeat "a" 100))]
  /\ calls (String.concat "" (repeat "a" 101)) = []
  /\ calls "!!" = [SearchLibraries "python 3.11"].
Proof. repeat split; vm_compute; reflexivity. Qed.

(** C5: a library id shorter than 3 gets the invalid-id error envelope,
    and the fetch is not called. *)
Theorem get_library_docs_rejects_short_id (Number_toString : Z -> string)
    (DEFAULT_MINIMUM_TOKENS : Z) (context7Config : gmap string value)
    (fetchLibraryDocumentation : string -> Api.FetchOptions -> outcome (option string))
    (id : string) (tokens : option Z) (topic lang python : option string) :
  (String.length id < 3)%nat ->
  let run := get_library_docs Number_toString DEFAULT_MINIMUM_TOKENS context7Config
               fetchLibraryDocumentation id tokens topic lang python in
  result run = Normal (error_envelope msg_invalid_id)
  /\ isError (error_envelope msg_invalid_id) = true
  /\ remote_calls (trace run) = [].
Proof.
  intros Hlen run.
  assert (Hshort : (String.length id <? 3)%nat = true) by (apply Nat.ltb_lt; assumption).
  subst run. rewrite get_library_docs_remote_calls.
  unfold get_library_docs. rewrite Hshort. repeat split; reflexivity.
Qed.

Lemma get_library_docs_rejects_short_id_witness :
  (String.length "ab" < 3)%nat
  /\ result (get_library_docs Value.no_large_number 10000 Config.DEFAULT_CONFIG
               (fun _ _ => Returns (Some "docs")) "ab" None None None None)
     = Normal (error_envelope msg_invalid_id)
  /\ remote_calls (trace (get_library_docs Value.no_large_number 10000 Config.DEFAULT_CONFIG
               (fun _ _ => Returns (Some "docs")) "ab" None None None None)) = [].
Proof.
  assert (H : (String.length "ab" < 3)%nat) by (simpl; lia).
  destruct (get_library_docs_rejects_short_id Value.no_large_number 10000 Config.DEFAULT_CONFIG
              (fun _ _ => Returns (Some "docs")) "ab" None None None None H)
    as (Hr & _ & Hc).
  repeat split; assumption.
Defined.

(** C10, as stated, fails when the token count is out of range: the raw
    id [???] passes the length check and sanitises to the empty string,
    but with 200000 tokens the request is refused by the range check and
    the fetch is not called. *)
Lemma short_sanitised_id_refused_for_tokens :
  (3 <= String.length "???")%nat
  /\ JS.delete_outside id_class "???" = ""
  /\ result (get_library_docs Value.no_large_number 10000 Config.DEFAULT_CONFIG
               (fun _ _ => Returns (Some "docs")) "???" (Some 200000%Z) None None None)
     = Normal (error_envelope msg_token_range)
  /\ remote_calls (trace (get_library_docs Value.no_large_number 10000
               Config.DEFAULT_CONFIG
               (fun _ _ => Returns (Some "docs")) "???" (Some 200000%Z) None None None))
     = [].
Proof. repeat split; reflexivity || (simpl; lia). Qed.

(** C10 (amended): the length check reads the raw id.  An id of at least 3
    code units whose sanitised form is shorter (down to empty) is never
    refused as an invalid id; when the token count is in range the fetch
    is called with the sanitised id, and when it is not the request is
    refused with the range message and nothing is fetched. *)
Theorem get_library_docs_checks_raw_length (Number_toString : Z -> string)
    (DEFAULT_MINIMUM_TOKENS : Z) (context7Config : gmap string value)
    (fetchLibraryDocumentation : string -> Api.FetchOptions -> outcome (option string))
    (id : string) (tokens : option Z) (topic lang python : option string) :
  (3 <= String.length id)%nat ->
  (String.length (JS.delete_outside id_class id) < 3)%nat ->
  let run := get_library_docs Number_toString DEFAULT_MINIMUM_TOKENS context7Config
               fetchLibraryDocumentation id tokens topic lang python in
  result run <> Normal (error_envelope msg_invalid_id)
  /\ (if tokens_out_of_range (default DEFAULT_MINIMUM_TOKENS tokens)
      then result run = Normal (error_envelope msg_token_range)
           /\ remote_calls (trace run) = []
      else remote_calls (trace run) =
           [FetchLibraryDocumentation (JS.delete_outside id_class id)
              (docs_options DEFAULT_MINIMUM_TOKENS context7Config
                 tokens topic lang python)]).
Proof.
  intros Hraw _ run.
  assert (Hlen : (String.length id <? 3)%nat = false) by (apply Nat.ltb_ge; lia).
  split.
  - subst run. unfold get_library_docs. rewrite Hlen.
    destruct (tokens_out_of_range _); [discriminate|].
    rewrite split_folders_sanitised. step_handler.
    destruct (fetchLibraryDocumentation _ _) as [t|e]; simpl.
    + destruct (no_text t); simpl; discriminate.
    + destruct (Value.nullish e); simpl; [discriminate|].
      destruct (Value.to_string _ _); simpl; discriminate.
  - subst run. rewrite get_library_docs_remote_calls, Hlen. simpl.
    unfold get_library_docs. rewrite Hlen.
    fold (default DEFAULT_MINIMUM_TOKENS tokens).
    destruct (tokens_out_of_range _); [split; reflexivity|reflexivity].
Qed.

Lemma get_library_docs_checks_raw_length_witness :
  (3 <= String.length "???")%nat
  /\ (String.length (JS.delete_outside id_class "???") < 3)%nat
  /\ remote_calls (trace (get_library_docs Value.no_large_number 10000
                            Config.DEFAULT_CONFIG
                            (fun _ _ => Returns None) "???" None None None None))
     = [FetchLibraryDocumentation ""
          {| Api.tokens := 10000; Api.topic := ""; Api.folders := "";
             Api.lang := Str "python"; Api.python := Str "3.11" |}].
Proof.
  assert (H1 : (3 <= String.length "???")%nat) by (simpl; lia).
  assert (H2 : (String.length (JS.delete_outside id_class "???") < 3)%nat)
    by (simpl; lia).
  destruct (get_library_docs_checks_raw_length Value.no_large_number 10000
              Config.DEFAULT_CONFIG
              (fun _ _ => Returns None) "???" None None None None H1 H2)
    as (_ & Hc).
  split; [exact H1|split; [exact H2|exact Hc]].
Defined.

(** ** Configuration *)

Lemma merge_lookup (doc : value) (k : string) :
  Config.merge doc !! k =
  match Config.spread doc !! k with
  | Some v => Some v
  | None => Config.DEFAULT_CONFIG !! k
  end.
Proof.
  unfold Config.merge. rewrite lookup_union.
  destruct (Config.spread doc !! k), (Config.DEFAULT_CONFIG !! k); reflexivity.
Qed.

(** C6: loading the configuration never fails.  No file: the defaults,
    nothing logged.  A file that cannot be read or parsed: one warning
    and the defaults.  A parsed file: the defaults with every top-level
    key of the document written over them and the other keys kept, so
    that for a document that is the object [m] the result holds at each
    key what [m] holds there, and the default where [m] has no such key;
    the document with the single key [defaultLang] set to [go] changes
    that key only. *)
Theorem getContext7Config_contract :
  (forall JSON_parse f,
      exists config, result (Config.getContext7Config JSON_parse f) = Normal config)
  /\ (forall JSON_parse,
        Config.getContext7Config JSON_parse Config.NoFile
        = ([], Normal Config.DEFAULT_CONFIG))
  /\ (forall JSON_parse f,
        match f with
        | Config.NoFile => True
        | Config.Unreadable e =>
            Config.getContext7Config JSON_parse f
            = ([ConsoleWarn Config.parse_warning (Some e)], Normal Config.DEFAULT_CONFIG)
        | Config.Content raw =>
            match JSON_parse raw with
            | Throws e =>
                Config.getContext7Config JSON_parse f
                = ([ConsoleWarn Config.parse_warning (Some e)],
                   Normal Config.DEFAULT_CONFIG)
            | Returns doc =>
                Config.getContext7Config JSON_parse f = ([], Normal (Config.merge doc))
            end
        end)
  /\ (forall doc k,
        Config.merge doc !! k =
        match Config.spread doc !! k with
        | Some v => Some v
        | None => Config.DEFAULT_CONFIG !! k
        end)
  /\ (forall (m : gmap string value) (k : string),
        Config.merge (Obj m) !! k =
        match m !! k with
        | Some v => Some v
        | None => Config.DEFAULT_CONFIG !! k
        end)
  /\ (let go := Config.merge (Obj {[ "defaultLang" := Str "go" ]}) in
      go !! "defaultLang" = Some (Str "go")
      /\ forall k, k <> "defaultLang" -> go !! k = Config.DEFAULT_CONFIG !! k).
Proof.
  split; [|split; [|split; [|split; [|split]]]].
  - intros JSON_parse f. unfold Config.getContext7Config.
    destruct f as [|e|raw]; simpl; try (eexists; reflexivity).
    step_handler. destruct (JSON_parse raw); eexists; reflexivity.
  - reflexivity.
  - intros JSON_parse f. unfold Config.getContext7Config.
    destruct f as [|e|raw]; simpl; try exact I; try reflexivity.
    step_handler. destruct (JSON_parse raw); reflexivity.
  - exact merge_lookup.
  - intros m k. unfold Config.merge, Config.spread. rewrite lookup_union.
    destruct (m !! k), (Config.DEFAULT_CONFIG !! k); reflexivity.
  - simpl. split.
    + rewrite merge_lookup. simpl. rewrite lookup_singleton_eq. reflexivity.
    + intros k Hk. rewrite merge_lookup. simpl.
      rewrite lookup_singleton_ne by congruence. reflexivity.
Qed.

(** The file with [defaultLang] set to [go], read to the end. *)
Example config_go :
  let config := Config.merge (Obj {[ "defaultLang" := Str "go" ]}) in
  Config.getContext7Config (fun _ => Returns (Obj {[ "defaultLang" := Str "go" ]}))
                           (Config.Content "go.json")
  = ([], Normal config)
  /\ Value.get config "defaultLang" = Str "go"
  /\ Value.get config "defaultVersion" = Str "3.11"
  /\ Value.get config "supportedLangs" = Arr [Str "python"]
  /\ Value.get config "supportedVersions" = Obj {[ "python" := Arr [Str "3.11"] ]}.
Proof. repeat split; reflexivity. Qed.

(** The merge is shallow: a [supportedVersions] of the file replaces the
    whole map of the defaults. *)
Example config_shallow :
  Value.get
    (Config.merge (Obj {[ "supportedVersions" := Obj {[ "go" := Arr [Str "1.22"] ]} ]}))
    "supportedVersions"
  = Obj {[ "go" := Arr [Str "1.22"] ]}.
Proof. reflexivity. Qed.

(** ** Effective language and version *)

(** C7, as stated, fails for an explicit but empty [lang]: the default
    language is used, not the empty string that was given. *)
Lemma empty_lang_falls_back :
  effective_lang Config.DEFAULT_CONFIG (Some "") = Str "python"
  /\ effective_lang Config.DEFAULT_CONFIG (Some "") <> Str ""
  /\ effective_python Config.DEFAULT_CONFIG (Some "") None = Str "3.11".
Proof. repeat split; try reflexivity. discriminate. Qed.

(** C7 (amended): the effective language is the explicit [lang] when it
    is given and not empty, else [config.defaultLang]; the effective
    version is the explicit one when given and not empty, else
    [config.defaultVersion] when the effective language is the string
    [python], else absent.  These are the values the fetch receives. *)
Theorem effective_language_and_version (Number_toString : Z -> string)
    (DEFAULT_MINIMUM_TOKENS : Z) (context7Config : gmap string value)
    (fetchLibraryDocumentation : string -> Api.FetchOptions -> outcome (option string))
    (id : string) (tokens : option Z) (topic lang python : option string) :
  let effectiveLang :=
    if given lang then of_optional lang else Value.get context7Config "defaultLang" in
  let effectivePython :=
    if given python then of_optional python
    else if Value.is_string "python" effectiveLang
         then Value.get context7Config "defaultVersion"
         else Undefined in
  effective_lang context7Config lang = effectiveLang
  /\ effective_python context7Config lang python = effectivePython
  /\ forall ev,
       In ev (remote_calls (trace (get_library_docs Number_toString DEFAULT_MINIMUM_TOKENS context7Config
                fetchLibraryDocumentation id tokens topic lang python))) ->
       exists libraryId options,
         ev = FetchLibraryDocumentation libraryId options
         /\ Api.lang options = effectiveLang
         /\ Api.python options = effectivePython.
Proof.
  intros effectiveLang effectivePython.
  assert (Hlang : effective_lang context7Config lang = effectiveLang).
  { subst effectiveLang. unfold effective_lang, Value.or_else.
    destruct lang as [l|]; reflexivity. }
  assert (Hpython : effective_python context7Config lang python = effectivePython).
  { subst effectivePython. unfold effective_python. rewrite Hlang.
    unfold Value.or_else. destruct python as [p|]; reflexivity. }
  split; [exact Hlang|split; [exact Hpython|]].
  intros ev. rewrite get_library_docs_remote_calls.
  destruct (_ || _); simpl; [tauto|].
  intros [<-|[]]. do 2 eexists. split; [reflexivity|].
  simpl. split; assumption.
Qed.

(** Resolution with the defaults: no [lang], no version. *)
Example effective_defaults :
  effective_python Config.DEFAULT_CONFIG None None = Str "3.11"
  /\ effective_python (<["defaultLang" := Str "go"]> Config.DEFAULT_CONFIG) None None
     = Undefined
  /\ effective_python Config.DEFAULT_CONFIG (Some "go") None = Undefined
  /\ effective_python Config.DEFAULT_CONFIG (Some "go") (Some "3.12") = Str "3.12".
Proof. repeat split; reflexivity. Qed.

(** ** Search failures *)

Lemma search_messages_differ :
  error_envelope msg_failed_to_retrieve <> error_envelope msg_no_libraries.
Proof. discriminate. Qed.

(** C8: for a name of valid length whose query can be built, so that the
    search is made, a search that returns nothing, or a response without
    a result list, gives the error envelope with the failed-to-retrieve
    message; a response whose result list is empty gives the error
    envelope with the no-libraries message; the two envelopes differ.
    (When the query cannot be built nothing is searched.) *)
Theorem resolve_absent_versus_empty (Number_toString : Z -> string)
    (context7Config : gmap string value) (SearchResult : Type)
    (searchLibraries : string -> outcome (option (SearchResponse SearchResult)))
    (formatSearchResults : SearchResponse SearchResult -> outcome string)
    (libraryName : string) :
  (2 <= String.length libraryName <= 100)%nat ->
  let run := resolve_library_id Number_toString context7Config SearchResult searchLibraries
               formatSearchResults libraryName in
  match search_query Number_toString context7Config libraryName with
  | Throws _ => remote_calls (trace run) = []
  | Returns searchQuery =>
      match searchLibraries searchQuery with
      | Returns None => result run = Normal (error_envelope msg_failed_to_retrieve)
      | Returns (Some response) =>
          match results response with
          | None => result run = Normal (error_envelope msg_failed_to_retrieve)
          | Some [] => result run = Normal (error_envelope msg_no_libraries)
          | Some (_ :: _) => True
          end
      | Throws _ => True
      end
  end
  /\ isError (error_envelope msg_failed_to_retrieve) = true
  /\ isError (error_envelope msg_no_libraries) = true
  /\ error_envelope msg_failed_to_retrieve <> error_envelope msg_no_libraries.
Proof.
  intros [Hlo Hhi] run.
  assert (Hok : (String.length libraryName <? 2)%nat
                || (100 <? String.length libraryName)%nat = false).
  { apply orb_false_iff. split; [apply Nat.ltb_ge|apply Nat.ltb_ge]; lia. }
  split; [|repeat split; try reflexivity; exact search_messages_differ].
  subst run. unfold resolve_library_id, resolve_no_results. rewrite Hok.
  step_handler.
  destruct (search_query _ _ _) as [searchQuery|e]; simpl; [|reflexivity].
  destruct (searchLibraries _) as [[response|]|e]; simpl; try reflexivity; try exact I.
  destruct (results response) as [[|x l]|]; simpl; try reflexivity; exact I.
Qed.

(** A configuration whose default language cannot be turned into text: a
    name of which nothing is left after sanitising makes the handler
    throw while it builds the query, outside the try block. *)
Example resolve_query_cannot_be_built (Number_toString : Z -> string) :
  resolve_library_id Number_toString
    (Config.merge (Obj {[ "defaultLang" := Obj {[ "toString" := Num 1 ]} ]}))
    unit (fun _ => Returns None) (fun _ => Returns "") "!!"
  = ([ConsoleLog "resolve-library-id invoked" [("libraryName", Str "!!")]],
     Throw Value.cannot_convert).
Proof. reflexivity. Qed.

Lemma resolve_absent_versus_empty_witness :
  (2 <= String.length "react" <= 100)%nat
  /\ result (resolve_library_id Value.no_large_number Config.DEFAULT_CONFIG unit
               (fun _ => Returns (Some {| results := Some [] |}))
               (fun _ => Returns "") "react")
     = Normal (error_envelope msg_no_libraries).
Proof.
  assert (H : (2 <= String.length "react" <= 100)%nat) by (simpl; lia).
  destruct (resolve_absent_versus_empty Value.no_large_number Config.DEFAULT_CONFIG unit
              (fun _ => Returns (Some {| results := Some [] |}))
              (fun _ => Returns "") "react" H) as (Hr & _).
  split; assumption.
Defined.

Example resolve_absent_response :
  result (resolve_library_id Value.no_large_number Config.DEFAULT_CONFIG unit (fun _ => Returns None)
            (fun _ => Returns "") "react")
  = Normal (error_envelope msg_failed_to_retrieve)
  /\ result (resolve_library_id Value.no_large_number Config.DEFAULT_CONFIG unit
               (fun _ => Returns (Some {| results := None |}))
               (fun _ => Returns "") "react")
     = Normal (error_envelope msg_failed_to_retrieve).
Proof. split; reflexivity. Qed.

(** ** The transport *)

(** C9: when HTTP is asked for and the transport cannot be had (the
    import throws, the export is missing, or the constructor throws),
    the failure is written to the console and the process exits with
    status 1; the standard-stream transport is never set up and nothing
    is connected. *)
Theorem http_unavailable_is_fatal (Number_toString : Z -> string)
    (Number : string -> option Z) (TRANSPORT : option string) (argv : list string)
    (import_streamableHttp : outcome bool)
    (new_HttpServerTransport : value -> value -> outcome bool)
    (transport_on new_StdioServerTransport : outcome unit)
    (server_connect : transport -> outcome unit) :
  Transport.useHttp TRANSPORT argv = true ->
  Transport.http_unavailable import_streamableHttp
    (new_HttpServerTransport (Transport.hostArg argv) (Transport.portArg Number argv))
  = true ->
  let run := Transport.run Number_toString Number TRANSPORT argv import_streamableHttp
               new_HttpServerTransport transport_on new_StdioServerTransport
               server_connect in
  result run = Exit 1
  /\ (exists e, last (trace run) = Some (ConsoleError Transport.msg_fatal_http (Some e)))
  /\ existsb Transport.uses_stdio (trace run) = false
  /\ existsb Transport.connects (trace run) = false.
Proof.
  intros Hhttp Hun run. subst run.
  unfold Transport.run, Transport.main. rewrite Hhttp.
  unfold Transport.http_unavailable in Hun.
  step_handler.
  destruct import_streamableHttp as [[|]|e]; simpl.
  - destruct (new_HttpServerTransport _ _) as [b|e]; [discriminate Hun|].
    simpl. repeat split; try reflexivity. eexists; reflexivity.
  - repeat split; try reflexivity. eexists; reflexivity.
  - repeat split; try reflexivity. eexists; reflexivity.
Qed.

Lemma http_unavailable_is_fatal_witness :
  Transport.useHttp None ["node"; "index.js"; "--transport"; "http"] = true
  /\ Transport.http_unavailable (Throws (Err "Error" "Cannot find module"))
       (Returns true) = true
  /\ result (Transport.run Value.no_large_number JS.decimal_literal None
               ["node"; "index.js"; "--transport"; "http"]
               (Throws (Err "Error" "Cannot find module"))
               (fun _ _ => Returns true) (Returns tt) (Returns tt)
               (fun _ => Returns tt))
     = Exit 1.
Proof.
  assert (H1 : Transport.useHttp None ["node"; "index.js"; "--transport"; "http"] = true)
    by reflexivity.
  assert (H2 : Transport.http_unavailable (Throws (Err "Error" "Cannot find module"))
                 (Returns true) = true) by reflexivity.
  destruct (http_unavailable_is_fatal Value.no_large_number JS.decimal_literal None
              ["node"; "index.js"; "--transport"; "http"]
              (Throws (Err "Error" "Cannot find module"))
              (fun _ _ => Returns true) (Returns tt) (Returns tt)
              (fun _ => Returns tt) H1 H2) as (Hr & _).
  repeat split; assumption.
Defined.

(** The other ways through [main]. *)
Example transport_runs :
  result (Transport.run Value.no_large_number JS.decimal_literal (Some "http") ["node"; "index.js"]
            (Returns true) (fun _ _ => Returns true) (Returns tt) (Returns tt)
            (fun _ => Returns tt)) = Park
  /\ result (Transport.run Value.no_large_number JS.decimal_literal None ["node"; "index.js"]
               (Returns true) (fun _ _ => Returns true) (Returns tt) (Returns tt)
               (fun _ => Returns tt)) = Normal tt
  /\ result (Transport.run Value.no_large_number JS.decimal_literal None ["node"; "index.js"]
               (Returns true) (fun _ _ => Returns true) (Returns tt) (Returns tt)
               (fun _ => Throws (Err "Error" "closed"))) = Exit 1
  /\ Transport.portArg JS.decimal_literal ["node"; "index.js"; "--port"; "8080"]
     = Num 8080
  /\ Transport.hostArg ["node"; "index.js"; "--host"; "127.0.0.1"] = Str "127.0.0.1".
Proof. repeat split; reflexivity. Qed.


(** * Further properties of the code *)

(** ** The minimum token count *)

(** X1: whatever the environment holds and whatever [parseInt] makes of
    it, the minimum token count is a positive number and start-up does not
    fail; at most one warning is written, and only when the fallback
    10000 is used; a minimum other than 10000 is what [parseInt] read
    from the variable. *)
Theorem minimum_tokens_positive (parseInt : string -> option Z) (env : option string) :
  exists n,
    result (init_DEFAULT_MINIMUM_TOKENS parseInt env) = Normal n
    /\ (0 < n)%Z
    /\ (trace (init_DEFAULT_MINIMUM_TOKENS parseInt env) = []
        \/ (trace (init_DEFAULT_MINIMUM_TOKENS parseInt env)
            = [ConsoleWarn minimum_tokens_warning None] /\ n = 10000%Z))
    /\ (n <> 10000%Z -> exists s, env = Some s /\ parseInt s = Some n).
Proof.
  unfold init_DEFAULT_MINIMUM_TOKENS.
  destruct env as [s|]; [|exists 10000%Z; repeat split; try lia; auto].
  destruct (JS.truthy s); [|exists 10000%Z; repeat split; try lia; auto].
  destruct (parseInt s) as [p|] eqn:Hp.
  - destruct (Z.ltb_spec 0 p).
    + exists p. repeat split; auto. intros _. exists s. auto.
    + exists 10000%Z. repeat split; try lia. right. split; reflexivity.
  - exists 10000%Z. repeat split; try lia. right. split; reflexivity.
Qed.

(** The warning comes with a variable that is set but does not hold a
    positive number. *)
Example minimum_tokens_runs :
  init_DEFAULT_MINIMUM_TOKENS JS.parseInt10 (Some "20000") = ([], Normal 20000%Z)
  /\ init_DEFAULT_MINIMUM_TOKENS JS.parseInt10 (Some "0")
     = ([ConsoleWarn minimum_tokens_warning None], Normal 10000%Z)
  /\ init_DEFAULT_MINIMUM_TOKENS JS.parseInt10 (Some "-5")
     = ([ConsoleWarn minimum_tokens_warning None], Normal 10000%Z)
  /\ init_DEFAULT_MINIMUM_TOKENS JS.parseInt10 (Some "many")
     = ([ConsoleWarn minimum_tokens_warning None], Normal 10000%Z)
  /\ init_DEFAULT_MINIMUM_TOKENS JS.parseInt10 (Some "") = ([], Normal 10000%Z)
  /\ init_DEFAULT_MINIMUM_TOKENS JS.parseInt10 None = ([], Normal 10000%Z).
Proof. repeat split; reflexivity. Qed.

(** ** The schema of [tokens] *)

Lemma tokens_schema_lower_bound
    (Number : string -> option Z) (minimum : Z) (val : value) (t : Z) :
  tokens_schema Number minimum val = Accepted (Some t) -> (minimum <= t)%Z.
Proof.
  unfold tokens_schema.
  destruct val; simpl; try discriminate.
  - intros [= <-]. rewrite tokens_transform_max. lia.
  - destruct (Number s); simpl; [|discriminate].
    intros [= <-]. rewrite tokens_transform_max. lia.
Qed.


(** X3: a request that leaves [tokens] out is run with the configured
    minimum.  With a valid id it reaches the fetch, asking for exactly the
    minimum, when the minimum lies in 100..100000, and is refused with the
    range message otherwise. *)
Theorem omitted_tokens_use_minimum (Number_toString : Z -> string)
    (minimum : Z) (context7Config : gmap string value)
    (fetchLibraryDocumentation : string -> Api.FetchOptions -> outcome (option string))
    (id : string) (topic lang python : option string) :
  (0 < minimum)%Z ->
  (3 <= String.length id)%nat ->
  let run := get_library_docs Number_toString minimum context7Config fetchLibraryDocumentation
               id None topic lang python in
  if ((100 <=? minimum) && (minimum <=? 100000))%Z
  then remote_calls (trace run) =
       [FetchLibraryDocumentation (JS.delete_outside id_class id)
          {| Api.tokens := minimum; Api.topic := default "" topic; Api.folders := "";
             Api.lang := effective_lang context7Config lang;
             Api.python := effective_python context7Config lang python |}]
  else result run = Normal (error_envelope msg_token_range)
       /\ remote_calls (trace run) = [].
Proof.
  intros Hpos Hid run.
  assert (Hlen : (String.length id <? 3)%nat = false) by (apply Nat.ltb_ge; lia).
  assert (Hrange : tokens_out_of_range minimum
                   = negb ((100 <=? minimum) && (minimum <=? 100000))%Z).
  { unfold tokens_out_of_range.
    destruct (Z.eqb_spec minimum 0); [lia|].
    destruct (Z.ltb_spec minimum 100), (Z.leb_spec 100 minimum),
      (Z.ltb_spec 100000 minimum), (Z.leb_spec minimum 100000); simpl; lia || reflexivity. }
  subst run. rewrite get_library_docs_remote_calls, Hlen. simpl. rewrite Hrange.
  destruct ((100 <=? minimum) && (minimum <=? 100000))%Z eqn:Hin; simpl; [reflexivity|].
  split; [|reflexivity].
  unfold get_library_docs. rewrite Hlen. simpl. rewrite Hrange. reflexivity.
Qed.

Lemma omitted_tokens_use_minimum_witness :
  (0 < 10000)%Z /\ (3 <= String.length "/vercel/next.js")%nat
  /\ remote_calls (trace (get_library_docs Value.no_large_number 10000 Config.DEFAULT_CONFIG
                            (fun _ _ => Returns (Some "docs"))
                            "/vercel/next.js" None (Some "routing") None None))
     = [FetchLibraryDocumentation "/vercel/next.js"
          {| Api.tokens := 10000; Api.topic := "routing"; Api.folders := "";
             Api.lang := Str "python"; Api.python := Str "3.11" |}].
Proof.
  assert (H1 : (0 < 10000)%Z) by lia.
  assert (H2 : (3 <= String.length "/vercel/next.js")%nat) by (simpl; lia).
  pose proof (omitted_tokens_use_minimum Value.no_large_number 10000 Config.DEFAULT_CONFIG
                (fun _ _ => Returns (Some "docs")) "/vercel/next.js"
                (Some "routing") None None H1 H2) as H.
  split; [exact H1|split; [exact H2|exact H]].
Defined.

(** X4: with a configured minimum above 100000 no documentation can be
    fetched at all: whatever token count the schema hands over, given or
    left out, a request with a valid id is refused with the range message
    and the fetch is not called. *)
Theorem minimum_above_range_refuses_all (Number_toString : Z -> string)
    (Number : string -> option Z) (minimum : Z) (context7Config : gmap string value)
    (fetchLibraryDocumentation : string -> Api.FetchOptions -> outcome (option string))
    (val : value) (tokens : option Z) (id : string) (topic lang python : option string) :
  (100000 < minimum)%Z ->
  (3 <= String.length id)%nat ->
  tokens_schema Number minimum val = Accepted tokens ->
  let run := get_library_docs Number_toString minimum context7Config fetchLibraryDocumentation
               id tokens topic lang python in
  result run = Normal (error_envelope msg_token_range)
  /\ remote_calls (trace run) = [].
Proof.
  intros Hmin Hid Hschema run.
  assert (Hlen : (String.length id <? 3)%nat = false) by (apply Nat.ltb_ge; lia).
  assert (Hbig : (minimum <= default minimum tokens)%Z).
  { destruct tokens as [t|]; simpl; [|lia].
    exact (tokens_schema_lower_bound Number minimum val t Hschema). }
  assert (Hout : tokens_out_of_range (default minimum tokens) = true).
  { unfold tokens_out_of_range.
    destruct (Z.eqb_spec (default minimum tokens) 0); [lia|].
    destruct (Z.ltb_spec 100000 (default minimum tokens)); [|lia].
    simpl. apply orb_true_r. }
  subst run. rewrite get_library_docs_remote_calls, Hlen. simpl. rewrite Hout.
  split; [|reflexivity].
  unfold get_library_docs. rewrite Hlen. fold (default minimum tokens).
  rewrite Hout. reflexivity.
Qed.

Lemma minimum_above_range_refuses_all_witness :
  (100000 < 200000)%Z /\ (3 <= String.length "react")%nat
  /\ tokens_schema JS.decimal_literal 200000 (Num 5000) = Accepted (Some 200000%Z)
  /\ result (get_library_docs Value.no_large_number 200000 Config.DEFAULT_CONFIG
               (fun _ _ => Returns (Some "docs")) "react" (Some 200000%Z) None None None)
     = Normal (error_envelope msg_token_range).
Proof.
  assert (H1 : (100000 < 200000)%Z) by lia.
  assert (H2 : (3 <= String.length "react")%nat) by (simpl; lia).
  assert (H3 : tokens_schema JS.decimal_literal 200000 (Num 5000)
               = Accepted (Some 200000%Z)) by reflexivity.
  destruct (minimum_above_range_refuses_all Value.no_large_number JS.decimal_literal 200000
              Config.DEFAULT_CONFIG (fun _ _ => Returns (Some "docs"))
              (Num 5000) (Some 200000%Z) "react" None None None H1 H2 H3) as [Hr _].
  split; [exact H1|split; [exact H2|split; [exact H3|exact Hr]]].
Defined.

(** ** The sanitisers *)

Lemma delete_outside_fixed (keep : ascii -> bool) (s : string) :
  forallb keep (list_ascii_of_string s) = true -> JS.delete_outside keep s = s.
Proof.
  induction s as [|c s IH]; simpl; [reflexivity|].
  intros H. apply andb_true_iff in H as [Hc Hs]. rewrite Hc, (IH Hs). reflexivity.
Qed.

(** X5: sanitising changes nothing in an id made of letters, digits and
    [_ - / .] only (and changes every other id); such an id, as the
    resolve tool hands them out, reaches the fetch as it was given. *)
Theorem clean_id_forwarded_unchanged (Number_toString : Z -> string)
    (DEFAULT_MINIMUM_TOKENS : Z) (context7Config : gmap string value)
    (fetchLibraryDocumentation : string -> Api.FetchOptions -> outcome (option string))
    (id : string) (tokens : option Z) (topic lang python : option string) :
  (3 <= String.length id)%nat ->
  tokens_out_of_range (default DEFAULT_MINIMUM_TOKENS tokens) = false ->
  (JS.delete_outside id_class id = id
   <-> forallb id_class (list_ascii_of_string id) = true)
  /\ (forallb id_class (list_ascii_of_string id) = true ->
      remote_calls (trace (get_library_docs Number_toString DEFAULT_MINIMUM_TOKENS context7Config
                             fetchLibraryDocumentation id tokens topic lang python))
      = [FetchLibraryDocumentation id
           (docs_options DEFAULT_MINIMUM_TOKENS context7Config tokens topic lang python)]).
Proof.
  intros Hid Htok.
  assert (Hlen : (String.length id <? 3)%nat = false) by (apply Nat.ltb_ge; lia).
  split.
  - split; [|apply delete_outside_fixed].
    intros Heq. rewrite <- Heq. apply delete_outside_kept.
  - intros Hclean. rewrite get_library_docs_remote_calls, Hlen, Htok. simpl.
    rewrite (delete_outside_fixed _ _ Hclean). reflexivity.
Qed.

Lemma clean_id_forwarded_unchanged_witness :
  (3 <= String.length "/mongodb/docs")%nat
  /\ tokens_out_of_range (default 10000%Z (Some 20000%Z)) = false
  /\ forallb id_class (list_ascii_of_string "/mongodb/docs") = true
  /\ remote_calls (trace (get_library_docs Value.no_large_number 10000 Config.DEFAULT_CONFIG
                            (fun _ _ => Returns None)
                            "/mongodb/docs" (Some 20000%Z) None None None))
     = [FetchLibraryDocumentation "/mongodb/docs"
          (docs_options 10000 Config.DEFAULT_CONFIG (Some 20000%Z) None None None)].
Proof.
  assert (H1 : (3 <= String.length "/mongodb/docs")%nat) by (simpl; lia).
  assert (H2 : tokens_out_of_range (default 10000%Z (Some 20000%Z)) = false)
    by reflexivity.
  assert (H3 : forallb id_class (list_ascii_of_string "/mongodb/docs") = true)
    by reflexivity.
  destruct (clean_id_forwarded_unchanged Value.no_large_number 10000 Config.DEFAULT_CONFIG
              (fun _ _ => Returns None) "/mongodb/docs" (Some 20000%Z) None None None
              H1 H2) as [_ Hcall].
  split; [exact H1|split; [exact H2|split; [exact H3|exact (Hcall H3)]]].
Defined.

(** X6: for a name of valid length, when something of the name is left
    after sanitising, the resolve tool makes exactly one search, for the
    name with every code unit outside letters, digits, [_ - .] and the
    space deleted: a query that holds only such code units and is at most
    100 long.  When nothing of the name is left, the query is the default
    language and version of the configuration joined by a space; if one
    of the two cannot be turned into text, the handler throws that
    TypeError before the try block and searches nothing. *)
Theorem search_query_shape (Number_toString : Z -> string)
    (context7Config : gmap string value) (SearchResult : Type)
    (searchLibraries : string -> outcome (option (SearchResponse SearchResult)))
    (formatSearchResults : SearchResponse SearchResult -> outcome string)
    (libraryName : string) :
  (2 <= String.length libraryName <= 100)%nat ->
  let run := resolve_library_id Number_toString context7Config SearchResult
               searchLibraries formatSearchResults libraryName in
  let safeLibraryName := JS.delete_outside name_class libraryName in
  match safeLibraryName with
  | String _ _ =>
      remote_calls (trace run) = [SearchLibraries safeLibraryName]
      /\ forallb name_class (list_ascii_of_string safeLibraryName) = true
      /\ (String.length safeLibraryName <= 100)%nat
  | EmptyString =>
      match Value.to_string Number_toString (Value.get context7Config "defaultLang"),
            Value.to_string Number_toString (Value.get context7Config "defaultVersion")
      with
      | Returns defaultLang, Returns defaultVersion =>
          remote_calls (trace run)
          = [SearchLibraries (defaultLang +:+ " " +:+ defaultVersion)]
      | Throws e, _ | Returns _, Throws e =>
          result run = Throw e /\ remote_calls (trace run) = []
      end
  end.
Proof.
  intros [Hlo Hhi] run safeLibraryName.
  assert (Hok : (String.length libraryName <? 2)%nat
                || (100 <? String.length libraryName)%nat = false).
  { apply orb_false_iff. split; apply Nat.ltb_ge; lia. }
  pose proof (delete_outside_kept name_class libraryName) as Hkept.
  pose proof (delete_outside_length name_class libraryName) as Hshort.
  fold safeLibraryName in Hkept, Hshort.
  assert (Hresult : forall e,
             search_query Number_toString context7Config libraryName = Throws e ->
             result run = Throw e).
  { intros e He. subst run. unfold resolve_library_id. rewrite Hok.
    step_handler. rewrite He. reflexivity. }
  subst run. rewrite resolve_library_id_remote_calls, Hok.
  revert Hresult. unfold search_query. fold safeLibraryName.
  destruct safeLibraryName as [|c rest]; simpl.
  - destruct (Value.to_string Number_toString (Value.get context7Config "defaultLang"))
      as [l|e]; [|intros H; split; [apply H|]; reflexivity].
    destruct (Value.to_string Number_toString (Value.get context7Config "defaultVersion"))
      as [v|e]; [reflexivity|intros H; split; [apply H|]; reflexivity].
  - intros _. repeat split; [exact Hkept|simpl in Hshort; lia].
Qed.

Lemma search_query_shape_witness :
  (2 <= String.length "next.js (v15)!" <= 100)%nat
  /\ remote_calls (trace (resolve_library_id Value.no_large_number
                            Config.DEFAULT_CONFIG unit
                            (fun _ => Returns None) (fun _ => Returns "")
                            "next.js (v15)!"))
     = [SearchLibraries "next.js v15"].
Proof.
  assert (H : (2 <= String.length "next.js (v15)!" <= 100)%nat) by (simpl; lia).
  destruct (search_query_shape Value.no_large_number Config.DEFAULT_CONFIG unit
              (fun _ => Returns None) (fun _ => Returns "") "next.js (v15)!" H)
    as (Hcalls & _).
  split; [exact H|exact Hcalls].
Defined.

(** ** What a handler call leaves in the trace *)

Ltac resolve_cases searchLibraries formatSearchResults :=
  unfold resolve_library_id, resolve_no_results;
  destruct (_ || _);
  [|step_handler;
    destruct (search_query _ _ _) as [?q|?e]; simpl;
    [destruct (searchLibraries _) as [[?r|]|?e]; simpl;
     [destruct (results r) as [[|?x ?l]|]; simpl;
      [|destruct (formatSearchResults r) as [?t|?e]; simpl;
        [|destruct (Value.to_string _ _); simpl]|]
     |
     |destruct (Value.to_string _ _); simpl]
    |]].

Ltac docs_cases fetchLibraryDocumentation :=
  unfold get_library_docs;
  destruct (String.length _ <? 3)%nat;
  [|destruct (tokens_out_of_range _);
    [|rewrite split_folders_sanitised; step_handler;
      destruct (fetchLibraryDocumentation _ _) as [?t|?e]; simpl;
      [destruct (no_text t); simpl
      |destruct (Value.nullish e); simpl;
       [|destruct (Value.to_string _ _); simpl]]]].


(** X8: a handler calls the remote API at most once (nothing is retried),
    and only its own operation: the resolve handler never fetches, the
    docs handler never searches. *)
Theorem handlers_call_their_operation_once (Number_toString : Z -> string)
    (DEFAULT_MINIMUM_TOKENS : Z) (context7Config : gmap string value)
    (SearchResult : Type)
    (searchLibraries : string -> outcome (option (SearchResponse SearchResult)))
    (formatSearchResults : SearchResponse SearchResult -> outcome string)
    (fetchLibraryDocumentation : string -> Api.FetchOptions -> outcome (option string))
    (libraryName id : string) (tokens : option Z) (topic lang python : option string) :
  let resolved := resolve_library_id Number_toString context7Config SearchResult
                    searchLibraries formatSearchResults libraryName in
  let fetched := get_library_docs Number_toString DEFAULT_MINIMUM_TOKENS context7Config
                   fetchLibraryDocumentation id tokens topic lang python in
  (length (remote_calls (trace resolved)) <= 1)%nat
  /\ existsb is_fetch (trace resolved) = false
  /\ (length (remote_calls (trace fetched)) <= 1)%nat
  /\ existsb is_search (trace fetched) = false.
Proof.
  intros resolved fetched. repeat apply conj.
  - subst resolved. rewrite resolve_library_id_remote_calls.
    destruct (_ || _); simpl; [lia|].
    destruct (search_query _ _ _); simpl; lia.
  - subst resolved. resolve_cases searchLibraries formatSearchResults; reflexivity.
  - subst fetched. rewrite get_library_docs_remote_calls.
    destruct (_ || _); simpl; lia.
  - subst fetched. docs_cases fetchLibraryDocumentation; reflexivity.
Qed.

(** ** The outcome of a handler call *)

Ltac not_a_success :=
  split; [discriminate|];
  let Hq := fresh in let Hs := fresh in let Hr := fresh in let Hf := fresh in
  intros (_ & ?query & ?response & ?first & ?rest & ?text & Hq & Hs & Hr & Hf & _);
  congruence.

(** X9: when the search settles, the resolve handler ends with an
    envelope or with an exception.  The envelope is a success exactly
    when the name has a valid length, the query could be built, the
    search returned a response with at least one result and the formatter
    returned; the text is then the fixed preamble followed by the
    formatted results.  An exception leaves the handler in two cases
    only: the fallback query cannot be built, or the search or the
    formatter threw a value that the catch block cannot turn into text. *)
Theorem resolve_succeeds_exactly_when (Number_toString : Z -> string)
    (context7Config : gmap string value) (SearchResult : Type)
    (searchLibraries : string -> outcome (option (SearchResponse SearchResult)))
    (formatSearchResults : SearchResponse SearchResult -> outcome string)
    (libraryName : string) :
  let built := search_query Number_toString context7Config libraryName in
  match result (resolve_library_id Number_toString context7Config SearchResult
                  searchLibraries formatSearchResults libraryName) with
  | Normal envelope =>
      isError envelope = false <->
      (2 <= String.length libraryName <= 100)%nat
      /\ exists query response first rest resultsText,
           built = Returns query
           /\ searchLibraries query = Returns (Some response)
           /\ results response = Some (first :: rest)
           /\ formatSearchResults response = Returns resultsText
           /\ envelope = success_envelope (resolve_preamble +:+ resultsText)
  | Throw failure =>
      (2 <= String.length libraryName <= 100)%nat
      /\ (built = Throws failure
          \/ exists query thrown,
               built = Returns query
               /\ (searchLibraries query = Throws thrown
                   \/ exists response first rest,
                        searchLibraries query = Returns (Some response)
                        /\ results response = Some (first :: rest)
                        /\ formatSearchResults response = Throws thrown)
               /\ Value.to_string Number_toString (opt_message_or_self thrown)
                  = Throws failure)
  | Exit _ | Park => False
  end.
Proof.
  intros built. subst built. unfold resolve_library_id, resolve_no_results.
  destruct ((String.length libraryName <? 2)%nat
            || (100 <? String.length libraryName)%nat) eqn:Hlen.
  - simpl. split; [discriminate|].
    intros [[Hlo Hhi] _]. apply orb_true_iff in Hlen as [H|H];
      apply Nat.ltb_lt in H; lia.
  - apply orb_false_iff in Hlen as [Hlo Hhi].
    apply Nat.ltb_ge in Hlo. apply Nat.ltb_ge in Hhi.
    step_handler.
    destruct (search_query _ _ _) as [query|e] eqn:Hq; simpl;
      [|split; [lia|left; reflexivity]].
    destruct (searchLibraries query) as [[response|]|thrown] eqn:Hsearch; simpl.
    + destruct (results response) as [[|first rest]|] eqn:Hres; simpl;
        [not_a_success| |not_a_success].
      destruct (formatSearchResults response) as [resultsText|thrown] eqn:Hfmt; simpl.
      * split; [|reflexivity]. intros _. split; [lia|].
        exists query, response, first, rest, resultsText. repeat split; assumption.
      * destruct (Value.to_string _ _) as [text|failure] eqn:Htext; simpl;
          [not_a_success|].
        split; [lia|right]. exists query, thrown. repeat split; [|exact Htext].
        right. exists response, first, rest. repeat split; assumption.
    + not_a_success.
    + destruct (Value.to_string _ _) as [text|failure] eqn:Htext; simpl;
        [not_a_success|].
      split; [lia|right]. exists query, thrown. repeat split; [|exact Htext].
      left. exact Hsearch.
Qed.

(** X10: for a request that passes validation and a fetch that settles,
    the docs handler ends as the fetch decides: a text that is not empty
    is returned as it is, as the single block of a success envelope; no
    text or an empty one gives the not-found error envelope; a thrown
    [null] or [undefined] leaves the handler as the TypeError of the
    property read; any other thrown value gives the error envelope with
    [Error: ] followed by the text of its message, or of the value itself
    when it has no message that is not empty, unless that conversion
    throws, in which case its TypeError leaves the handler. *)
Theorem get_library_docs_outcomes (Number_toString : Z -> string)
    (DEFAULT_MINIMUM_TOKENS : Z) (context7Config : gmap string value)
    (fetchLibraryDocumentation : string -> Api.FetchOptions -> outcome (option string))
    (id : string) (tokens : option Z) (topic lang python : option string) :
  (3 <= String.length id)%nat ->
  tokens_out_of_range (default DEFAULT_MINIMUM_TOKENS tokens) = false ->
  let run := get_library_docs Number_toString DEFAULT_MINIMUM_TOKENS context7Config
               fetchLibraryDocumentation id tokens topic lang python in
  match fetchLibraryDocumentation (JS.delete_outside id_class id)
          (docs_options DEFAULT_MINIMUM_TOKENS context7Config tokens topic lang python)
  with
  | Returns (Some (String c rest)) =>
      result run = Normal (success_envelope (String c rest))
  | Returns (Some EmptyString) | Returns None =>
      result run = Normal (error_envelope msg_not_found)
  | Throws e =>
      if Value.nullish e
      then result run = Throw (Value.cannot_read e)
      else match Value.to_string Number_toString
                   (Value.or_else (Value.message_of e) e) with
           | Returns text => result run = Normal (error_envelope ("Error: " +:+ text))
           | Throws failure => result run = Throw failure
           end
  end.
Proof.
  intros Hid Htok run.
  assert (Hlen : (String.length id <? 3)%nat = false) by (apply Nat.ltb_ge; lia).
  subst run. unfold get_library_docs, docs_options. rewrite Hlen, Htok.
  rewrite split_folders_sanitised. step_handler.
  destruct (fetchLibraryDocumentation _ _) as [[[|c rest]|]|e]; simpl; try reflexivity.
  destruct (Value.nullish e); simpl; [reflexivity|].
  destruct (Value.to_string _ _); reflexivity.
Qed.

Lemma get_library_docs_outcomes_witness :
  (3 <= String.length "react")%nat
  /\ tokens_out_of_range (default 10000%Z None) = false
  /\ result (get_library_docs Value.no_large_number 10000 Config.DEFAULT_CONFIG
               (fun _ _ => Throws (Err "Error" "fetch failed"))
               "react" None None None None)
     = Normal (error_envelope "Error: fetch failed").
Proof.
  assert (H1 : (3 <= String.length "react")%nat) by (simpl; lia).
  assert (H2 : tokens_out_of_range (default 10000%Z None) = false) by reflexivity.
  pose proof (get_library_docs_outcomes Value.no_large_number 10000 Config.DEFAULT_CONFIG
                (fun _ _ => Throws (Err "Error" "fetch failed"))
                "react" None None None None H1 H2) as H.
  split; [exact H1|split; [exact H2|exact H]].
Defined.

(** A thrown object that cannot be turned into text leaves the docs
    handler too. *)
Example get_library_docs_unprintable_rejection (Number_toString : Z -> string) :
  result (get_library_docs Number_toString 10000 Config.DEFAULT_CONFIG
            (fun _ _ => Throws (Obj {[ "toString" := Num 1 ]}))
            "react" None None None None)
  = Throw Value.cannot_convert.
Proof. reflexivity. Qed.

(** X11: when the query was built, a value thrown by the search or by
    the formatter is caught by the resolve handler, [null] and
    [undefined] included, and comes back as an error envelope whose text
    is [Error: ] followed by the thrown value's message when it has one
    that is not empty, and by the thrown value printed otherwise; only
    when that value cannot be turned into text does the TypeError of the
    conversion leave the handler. *)
Theorem resolve_contains_failures (Number_toString : Z -> string)
    (context7Config : gmap string value) (SearchResult : Type)
    (searchLibraries : string -> outcome (option (SearchResponse SearchResult)))
    (formatSearchResults : SearchResponse SearchResult -> outcome string)
    (libraryName : string) :
  (2 <= String.length libraryName <= 100)%nat ->
  let run := resolve_library_id Number_toString context7Config SearchResult
               searchLibraries formatSearchResults libraryName in
  let reported e :=
    match Value.to_string Number_toString (opt_message_or_self e) with
    | Returns text => result run = Normal (error_envelope ("Error: " +:+ text))
    | Throws failure => result run = Throw failure
    end in
  match search_query Number_toString context7Config libraryName with
  | Throws _ => True
  | Returns searchQuery =>
      match searchLibraries searchQuery with
      | Throws e => reported e
      | Returns (Some response) =>
          match results response, formatSearchResults response with
          | Some (_ :: _), Throws e => reported e
          | _, _ => True
          end
      | Returns None => True
      end
  end
  /\ (forall name message,
        message <> "" ->
        Value.to_string Number_toString (opt_message_or_self (Err name message))
        = Returns message)
  /\ Value.to_string Number_toString (opt_message_or_self Undefined)
     = Returns "undefined"
  /\ Value.to_string Number_toString (opt_message_or_self Null) = Returns "null"
  /\ (forall s, Value.to_string Number_toString (opt_message_or_self (Str s))
                = Returns s)
  /\ (forall n, Value.safe_integer n = true ->
                Value.to_string Number_toString (opt_message_or_self (Num n))
                = Returns (pretty n)).
Proof.
  intros [Hlo Hhi] run reported.
  assert (Hok : (String.length libraryName <? 2)%nat
                || (100 <? String.length libraryName)%nat = false).
  { apply orb_false_iff. split; apply Nat.ltb_ge; lia. }
  repeat apply conj.
  - subst reported run. unfold resolve_library_id, resolve_no_results. rewrite Hok.
    step_handler.
    destruct (search_query _ _ _) as [searchQuery|e]; simpl; [|exact I].
    destruct (searchLibraries _) as [[response|]|e]; simpl; try exact I.
    + destruct (results response) as [[|x l]|]; simpl;
        destruct (formatSearchResults response); simpl; try exact I.
      destruct (Value.to_string _ _); reflexivity.
    + destruct (Value.to_string _ _); reflexivity.
  - intros name message Hm. destruct message; [congruence|reflexivity].
  - reflexivity.
  - reflexivity.
  - intros s. destruct s; reflexivity.
  - intros n Hn. unfold opt_message_or_self, Value.or_else. simpl. rewrite Hn.
    reflexivity.
Qed.

Lemma resolve_contains_failures_witness :
  (2 <= String.length "react" <= 100)%nat
  /\ result (resolve_library_id Value.no_large_number Config.DEFAULT_CONFIG unit
               (fun _ => Throws (Err "Error" "network down"))
               (fun _ => Returns "") "react")
     = Normal (error_envelope "Error: network down").
Proof.
  assert (H : (2 <= String.length "react" <= 100)%nat) by (simpl; lia).
  destruct (resolve_contains_failures Value.no_large_number Config.DEFAULT_CONFIG unit
              (fun _ => Throws (Err "Error" "network down"))
              (fun _ => Returns "") "react" H) as [Hr _].
  split; [exact H|exact Hr].
Defined.

(** ** Command-line flags *)

Lemma array_includes_In (x : string) (argv : list string) :
  Transport.array_includes x argv = true <-> In x argv.
Proof.
  unfold Transport.array_includes. rewrite existsb_exists. split.
  - intros (a & Ha & Hx). apply bool_decide_eq_true in Hx. subst. exact Ha.
  - intros H. exists x. split; [exact H|]. apply bool_decide_eq_true. reflexivity.
Qed.

Lemma indexOf_first (x : string) (pre rest : list string) :
  ~ In x pre ->
  Transport.indexOf x (pre ++ x :: rest) = Z.of_nat (length pre).
Proof.
  induction pre as [|a pre IH]; simpl; intros Hnot.
  - rewrite bool_decide_eq_true_2 by reflexivity. reflexivity.
  - rewrite bool_decide_eq_false_2 by (intros ->; apply Hnot; left; reflexivity).
    rewrite IH by (intros H; apply Hnot; right; exact H).
    destruct (Z.ltb_spec (Z.of_nat (length pre)) 0); lia.
Qed.

Lemma indexOf_absent (x : string) (argv : list string) :
  ~ In x argv -> Transport.indexOf x argv = (-1)%Z.
Proof.
  induction argv as [|a argv IH]; simpl; intros Hnot; [reflexivity|].
  rewrite bool_decide_eq_false_2 by (intros ->; apply Hnot; left; reflexivity).
  rewrite IH by (intros H; apply Hnot; right; exact H). reflexivity.
Qed.

(** Every list that holds [x] splits at the first [x]. *)
Lemma first_occurrence (x : string) (argv : list string) :
  In x argv -> exists pre rest, argv = pre ++ x :: rest /\ ~ In x pre.
Proof.
  induction argv as [|a argv IH]; simpl; [tauto|].
  intros Hin. destruct (decide (a = x)) as [->|Hne].
  - exists [], argv. split; [reflexivity|]. simpl. tauto.
  - destruct Hin as [Heq|Hin]; [congruence|].
    destruct (IH Hin) as (pre & rest & -> & Hnot).
    exists (a :: pre), rest. split; [reflexivity|].
    simpl. intros [H|H]; [congruence|tauto].
Qed.

(** [argv[argv.indexOf(x) + 1]] is what follows the first [x]. *)
Lemma next_after_first (x : string) (pre rest : list string) :
  ~ In x pre ->
  Transport.at_index (pre ++ x :: rest) (Transport.indexOf x (pre ++ x :: rest) + 1)
  = head rest.
Proof.
  intros Hnot. rewrite indexOf_first by exact Hnot.
  unfold Transport.at_index.
  destruct (Z.ltb_spec (Z.of_nat (length pre) + 1) 0); [lia|].
  replace (Z.to_nat (Z.of_nat (length pre) + 1)) with (S (length pre)) by lia.
  clear. induction pre as [|a pre IH]; simpl; [destruct rest; reflexivity|exact IH].
Qed.

Lemma finds_flag_In (flag : string) (argv : list string) :
  Transport.finds_flag flag argv = true -> In flag argv.
Proof.
  induction argv as [|a argv IH]; simpl; [discriminate|].
  intros H. apply orb_true_iff in H as [H|H].
  - apply andb_true_iff in H as [H _]. apply bool_decide_eq_true in H. left. exact H.
  - right. apply IH. exact H.
Qed.

Lemma finds_flag_skip (flag : string) (pre rest : list string) :
  ~ In flag pre ->
  Transport.finds_flag flag (pre ++ rest) = Transport.finds_flag flag rest.
Proof.
  induction pre as [|a pre IH]; simpl; intros Hnot; [reflexivity|].
  rewrite bool_decide_eq_false_2 by (intros ->; apply Hnot; left; reflexivity).
  simpl. apply IH. intros H. apply Hnot. right. exact H.
Qed.

(** When the search for a flag finds something, the argument after the
    first occurrence of the flag exists. *)
Lemma finds_flag_defined (flag : string) (argv : list string) :
  Transport.finds_flag flag argv = true ->
  exists v, Transport.at_index argv (Transport.indexOf flag argv + 1) = Some v.
Proof.
  intros Hfind.
  destruct (first_occurrence flag argv (finds_flag_In flag argv Hfind))
    as (pre & rest & -> & Hnot).
  rewrite next_after_first by exact Hnot.
  rewrite finds_flag_skip in Hfind by exact Hnot.
  destruct rest as [|v rest]; [|exists v; reflexivity].
  simpl in Hfind. rewrite andb_false_r in Hfind. discriminate.
Qed.

Lemma finds_flag_here (flag v : string) (pre post : list string) :
  ~ In flag pre -> v <> "" ->
  Transport.finds_flag flag (pre ++ flag :: v :: post) = true.
Proof.
  intros Hnot Hv. rewrite finds_flag_skip by exact Hnot. simpl.
  rewrite bool_decide_eq_true_2 by reflexivity.
  destruct v; [congruence|reflexivity].
Qed.

Lemma finds_flag_absent (flag : string) (argv : list string) :
  ~ In flag argv -> Transport.finds_flag flag argv = false.
Proof.
  intros Hnot. destruct (Transport.finds_flag flag argv) eqn:H; [|reflexivity].
  exfalso. apply Hnot. apply finds_flag_In. exact H.
Qed.

(** X12: the HTTP transport is chosen exactly when the environment
    variable [TRANSPORT] is [http], or the first [--transport] on the
    command line is followed at once by [http]; a later [--transport
    http] does not count, nor does a [--transport] that ends the line. *)
Theorem useHttp_first_flag (TRANSPORT : option string) (argv : list string) :
  Transport.useHttp TRANSPORT argv = true
  <-> TRANSPORT = Some "http"
      \/ exists pre post,
           argv = pre ++ "--transport" :: "http" :: post /\ ~ In "--transport" pre.
Proof.
  unfold Transport.useHttp. rewrite orb_true_iff, andb_true_iff.
  rewrite bool_decide_eq_true, array_includes_In. split.
  - intros [H|[Hin Hnext]]; [left; exact H|right].
    apply bool_decide_eq_true in Hnext.
    destruct (first_occurrence _ _ Hin) as (pre & rest & -> & Hnot).
    rewrite next_after_first in Hnext by exact Hnot.
    destruct rest as [|v post]; [discriminate|].
    simpl in Hnext. injection Hnext as ->. exists pre, post. split; [reflexivity|exact Hnot].
  - intros [H|(pre & post & -> & Hnot)]; [left; exact H|right]. split.
    + apply in_or_app. right. left. reflexivity.
    + apply bool_decide_eq_true. rewrite next_after_first by exact Hnot. reflexivity.
Qed.

Example useHttp_runs :
  Transport.useHttp None ["node"; "index.js"; "--transport"; "http"] = true
  /\ Transport.useHttp None ["node"; "index.js"; "--transport"; "stdio"; "--transport"; "http"]
     = false
  /\ Transport.useHttp None ["node"; "index.js"; "--transport"] = false
  /\ Transport.useHttp None ["node"; "index.js"; "--transport=http"] = false
  /\ Transport.useHttp (Some "HTTP") ["node"; "index.js"] = false
  /\ Transport.useHttp (Some "http") ["node"; "index.js"; "--transport"; "stdio"] = true.
Proof. repeat split; reflexivity. Qed.

(** X13: the host handed to the HTTP transport is always a string and the
    port always a number or [NaN].  Without the flag the host is
    [0.0.0.0] and the port 9700, also when the flag ends the command
    line; with the flag, the value is the argument after its first
    occurrence, read by [Number] for the port. *)
Theorem host_and_port_arguments (Number : string -> option Z) (argv : list string) :
  (exists h, Transport.hostArg argv = Str h)
  /\ (Transport.portArg Number argv = NaN
      \/ exists n, Transport.portArg Number argv = Num n)
  /\ (~ In "--host" argv -> Transport.hostArg argv = Str "0.0.0.0")
  /\ (~ In "--port" argv -> Transport.portArg Number argv = Num 9700)
  /\ (forall pre, ~ In "--host" pre ->
        Transport.hostArg (pre ++ ["--host"]) = Str "0.0.0.0")
  /\ (forall pre, ~ In "--port" pre ->
        Transport.portArg Number (pre ++ ["--port"]) = Num 9700)
  /\ (forall pre h post, ~ In "--host" pre -> h <> "" ->
        Transport.hostArg (pre ++ "--host" :: h :: post) = Str h)
  /\ (forall pre p post, ~ In "--port" pre -> p <> "" ->
        Transport.portArg Number (pre ++ "--port" :: p :: post)
        = Value.of_number (Number p)).
Proof.
  unfold Transport.hostArg, Transport.portArg. repeat apply conj.
  - destruct (Transport.finds_flag "--host" argv) eqn:Hfind; [|eexists; reflexivity].
    destruct (finds_flag_defined _ _ Hfind) as [v ->]. exists v. reflexivity.
  - destruct (Transport.finds_flag "--port" argv) eqn:Hfind;
      [|right; eexists; reflexivity].
    destruct (finds_flag_defined _ _ Hfind) as [v ->].
    destruct (Number v) as [n|]; simpl; [right; exists n; reflexivity|left; reflexivity].
  - intros Hnot. rewrite finds_flag_absent by exact Hnot. reflexivity.
  - intros Hnot. rewrite finds_flag_absent by exact Hnot. reflexivity.
  - intros pre Hnot. rewrite finds_flag_skip by exact Hnot. reflexivity.
  - intros pre Hnot. rewrite finds_flag_skip by exact Hnot. reflexivity.
  - intros pre h post Hnot Hh. rewrite finds_flag_here by assumption.
    rewrite next_after_first by exact Hnot. reflexivity.
  - intros pre p post Hnot Hp. rewrite finds_flag_here by assumption.
    rewrite next_after_first by exact Hnot. reflexivity.
Qed.

(** A first [--host] followed by an empty argument wins over a later one
    once any occurrence has a value. *)
Example hostArg_runs :
  Transport.hostArg ["node"; "index.js"; "--host"; ""; "--host"; "10.0.0.1"] = Str ""
  /\ Transport.hostArg ["node"; "index.js"; "--host"; ""] = Str "0.0.0.0"
  /\ Transport.portArg JS.decimal_literal ["node"; "index.js"; "--port"; "http"] = NaN.
Proof. repeat split; reflexivity. Qed.

(** ** The ways [main] can end *)

(** The address of the listener can always be written out. *)
Lemma http_address_returns (Number_toString : Z -> string)
    (Number : string -> option Z) (argv : list string) :
  exists text, Transport.http_address Number_toString Number argv = Returns text.
Proof.
  unfold Transport.http_address, Transport.hostArg, Transport.portArg.
  assert (Hhost : exists h,
             (if Transport.finds_flag "--host" argv
              then of_optional
                     (Transport.at_index argv (Transport.indexOf "--host" argv + 1))
              else Str "0.0.0.0") = Str h).
  { destruct (Transport.finds_flag "--host" argv) eqn:Hfind; [|eexists; reflexivity].
    destruct (finds_flag_defined _ _ Hfind) as [v ->]. exists v. reflexivity. }
  destruct Hhost as [h ->]. simpl.
  destruct (Transport.finds_flag "--port" argv) eqn:Hfind; [|eexists; reflexivity].
  destruct (finds_flag_defined _ _ Hfind) as [v ->].
  destruct (Number v) as [n|]; simpl; eexists; reflexivity.
Qed.

(** X14: no exception leaves the program through [main]: it ends by
    returning, which happens only on the standard streams after a
    successful connection; by waiting for ever, which happens only
    under HTTP after the import, the constructor, the observer (when the
    transport takes one) and the connection all succeeded; or by exiting,
    always with status 1 and with the failure written to the console
    just before. *)
Theorem run_outcomes (Number_toString : Z -> string)
    (Number : string -> option Z) (TRANSPORT : option string) (argv : list string)
    (import_streamableHttp : outcome bool)
    (new_HttpServerTransport : value -> value -> outcome bool)
    (transport_on new_StdioServerTransport : outcome unit)
    (server_connect : transport -> outcome unit) :
  let run := Transport.run Number_toString Number TRANSPORT argv import_streamableHttp
               new_HttpServerTransport transport_on new_StdioServerTransport
               server_connect in
  match result run with
  | Throw _ => False
  | Exit code =>
      code = 1%Z
      /\ exists e,
           last (trace run)
           = Some (ConsoleError (if Transport.useHttp TRANSPORT argv
                                 then Transport.msg_fatal_http
                                 else Transport.msg_fatal_main) (Some e))
  | Normal _ =>
      Transport.useHttp TRANSPORT argv = false
      /\ new_StdioServerTransport = Returns tt
      /\ server_connect Stdio = Returns tt
  | Park =>
      Transport.useHttp TRANSPORT argv = true
      /\ import_streamableHttp = Returns true
      /\ (exists has_on,
            new_HttpServerTransport (Transport.hostArg argv)
              (Transport.portArg Number argv) = Returns has_on
            /\ (has_on = true -> transport_on = Returns tt))
      /\ server_connect Http = Returns tt
  end.
Proof.
  intros run. subst run. unfold Transport.run, Transport.main.
  destruct (http_address_returns Number_toString Number argv) as [address Haddress].
  destruct (Transport.useHttp TRANSPORT argv).
  - unfold bind, try_catch, call, await, emit, ret, throw, process_exit, park,
      trace, result; simpl.
    destruct import_streamableHttp as [[|]|e]; simpl;
      try (split; [reflexivity|eexists; reflexivity]).
    destruct (new_HttpServerTransport _ _) as [[|]|e] eqn:Hnew; simpl;
      rewrite ?Haddress; simpl;
      try (split; [reflexivity|eexists; reflexivity]).
    + destruct transport_on as [[]|e]; simpl;
        try (split; [reflexivity|eexists; reflexivity]).
      destruct (server_connect Http) as [[]|e]; simpl;
        try (split; [reflexivity|eexists; reflexivity]).
      repeat split. exists true. split; [reflexivity|reflexivity].
    + destruct (server_connect Http) as [[]|e]; simpl;
        try (split; [reflexivity|eexists; reflexivity]).
      repeat split. exists false. split; [reflexivity|discriminate].
  - unfold bind, try_catch, call, await, emit, ret, throw, process_exit, park,
      trace, result; simpl.
    destruct new_StdioServerTransport as [[]|e]; simpl;
      try (split; [reflexivity|eexists; reflexivity]).
    destruct (server_connect Stdio) as [[]|e]; simpl;
      try (split; [reflexivity|eexists; reflexivity]).
Qed.

(** X15: one run uses one transport.  When HTTP is chosen nothing of the
    standard-stream transport is touched, whatever fails; when it is not
    chosen, the HTTP module is not even imported; and the tool registry
    is connected at most once. *)
Theorem run_uses_one_transport (Number_toString : Z -> string)
    (Number : string -> option Z) (TRANSPORT : option string) (argv : list string)
    (import_streamableHttp : outcome bool)
    (new_HttpServerTransport : value -> value -> outcome bool)
    (transport_on new_StdioServerTransport : outcome unit)
    (server_connect : transport -> outcome unit) :
  let run := Transport.run Number_toString Number TRANSPORT argv import_streamableHttp
               new_HttpServerTransport transport_on new_StdioServerTransport
               server_connect in
  (if Transport.useHttp TRANSPORT argv
   then existsb Transport.uses_stdio (trace run) = false
   else existsb uses_http (trace run) = false)
  /\ (length (List.filter Transport.connects (trace run)) <= 1)%nat.
Proof.
  intros run. subst run. unfold Transport.run, Transport.main.
  destruct (http_address_returns Number_toString Number argv) as [address Haddress].
  destruct (Transport.useHttp TRANSPORT argv);
    unfold bind, try_catch, call, await, emit, ret, throw, process_exit, park,
      trace, result; simpl.
  - destruct import_streamableHttp as [[|]|e]; simpl; try (split; [reflexivity|lia]).
    destruct (new_HttpServerTransport _ _) as [[|]|e]; simpl;
      rewrite ?Haddress; simpl;
      try (split; [reflexivity|lia]).
    + destruct transport_on as [[]|e]; simpl; try (split; [reflexivity|lia]).
      destruct (server_connect Http) as [[]|e]; simpl; split; reflexivity || lia.
    + destruct (server_connect Http) as [[]|e]; simpl; split; reflexivity || lia.
  - destruct new_StdioServerTransport as [[]|e]; simpl; try (split; [reflexivity|lia]).
    destruct (server_connect Stdio) as [[]|e]; simpl; split; reflexivity || lia.
Qed.

(** ** The loaded configuration *)

(** X16: whatever the file holds, the loaded configuration defines the
    four keys of the defaults, so a handler never reads a missing
    setting; at most one warning is written, and after a warning the
    configuration is exactly the defaults. *)
Theorem loaded_config_is_complete
    (JSON_parse : string -> outcome value) (f : Config.config_file) :
  exists config,
    result (Config.getContext7Config JSON_parse f) = Normal config
    /\ (forall k, is_Some (Config.DEFAULT_CONFIG !! k) -> is_Some (config !! k))
    /\ (length (trace (Config.getContext7Config JSON_parse f)) <= 1)%nat
    /\ (trace (Config.getContext7Config JSON_parse f) <> [] ->
        config = Config.DEFAULT_CONFIG).
Proof.
  unfold Config.getContext7Config.
  destruct f as [|e|raw]; simpl.
  - exists Config.DEFAULT_CONFIG. repeat split; auto.
  - exists Config.DEFAULT_CONFIG. repeat split; auto.
  - step_handler. destruct (JSON_parse raw) as [doc|e]; simpl.
    + exists (Config.merge doc). repeat split; try lia; try congruence.
      intros k Hk. rewrite merge_lookup.
      destruct (Config.spread doc !! k); [eexists; reflexivity|exact Hk].
    + exists Config.DEFAULT_CONFIG. repeat split; auto.
Qed.

(** The decimal print of a number starts with a digit. *)
Lemma pretty_N_go_head (c : ascii) (x : N) (s : string) :
  JS.digit c = false ->
  (forall s', s <> String c s') ->
  forall s', pretty_N_go x s <> String c s'.
Proof.
  intros Hc. revert s. induction (N.lt_wf_0 x) as [x _ IH]; intros s Hs s'.
  assert (x = 0 \/ 0 < x)%N as [->|Hpos] by lia.
  - rewrite pretty_N_go_0. apply Hs.
  - rewrite pretty_N_go_step by exact Hpos. apply IH.
    + apply N.div_lt; lia.
    + intros s'' Heq. injection Heq as Hchar _.
      unfold pretty_N_char in Hchar.
      repeat case_match; subst c; discriminate Hc.
Qed.

Lemma pretty_nat_head (c : ascii) (i : nat) (s' : string) :
  JS.digit c = false -> pretty i <> String c s'.
Proof.
  intros Hc. unfold pretty, pretty_nat, pretty, pretty_N.
  case_decide.
  - intros Heq. injection Heq as <- _. discriminate Hc.
  - apply pretty_N_go_head; [exact Hc|discriminate].
Qed.

Lemma index_keys_miss {A} (f : nat -> A -> value) (l : list A) (c : ascii) (k : string) :
  JS.digit c = false ->
  (list_to_map (imap (fun i x => (pretty i, f i x)) l) : gmap string value)
    !! String c k = None.
Proof.
  intros Hc. apply not_elem_of_list_to_map_1.
  intros Hin. apply list_elem_of_fmap in Hin as ([k' v] & Hk & Hin).
  apply elem_of_lookup_imap_1 in Hin as (i & x & Heq & _).
  simpl in Hk. injection Heq as -> _.
  exact (pretty_nat_head c i k Hc (eq_sym Hk)).
Qed.

(** The own keys of a document that is not an object are indices, or
    there are none: no key that starts with a letter is among them. *)
Lemma spread_not_object (doc : value) (c : ascii) (k : string) :
  (forall m, doc <> Obj m) ->
  JS.digit c = false ->
  Config.spread doc !! String c k = None.
Proof.
  intros Hdoc Hc. destruct doc; simpl; try apply lookup_empty.
  - exact (index_keys_miss (fun _ c => Str (String c EmptyString)) _ c k Hc).
  - exact (index_keys_miss (fun _ x => x) l c k Hc).
  - exfalso. exact (Hdoc m eq_refl).
Qed.

(** X17: a file that parses but does not hold an object ([null], a
    number, a boolean, a string, an array) is taken without a warning
    and changes none of the four settings: each keeps its default. *)
Theorem non_object_document_keeps_defaults
    (JSON_parse : string -> outcome value) (raw : string) (doc : value) :
  JSON_parse raw = Returns doc ->
  (forall m, doc <> Obj m) ->
  exists config,
    Config.getContext7Config JSON_parse (Config.Content raw) = ([], Normal config)
    /\ Value.get config "defaultLang" = Str "python"
    /\ Value.get config "defaultVersion" = Str "3.11"
    /\ Value.get config "supportedLangs" = Arr [Str "python"]
    /\ Value.get config "supportedVersions" = Obj {[ "python" := Arr [Str "3.11"] ]}.
Proof.
  intros Hparse Hdoc. exists (Config.merge doc). split.
  - unfold Config.getContext7Config. simpl. step_handler. rewrite Hparse. reflexivity.
  - unfold Value.get. rewrite !merge_lookup.
    rewrite !(spread_not_object doc) by (exact Hdoc || reflexivity).
    repeat split; reflexivity.
Qed.

Lemma non_object_document_keeps_defaults_witness :
  (fun _ : string => Returns (Arr [Str "go"; Str "rust"])) "langs.json"
  = Returns (Arr [Str "go"; Str "rust"])
  /\ (forall m, Arr [Str "go"; Str "rust"] <> Obj m)
  /\ exists config,
       Config.getContext7Config (fun _ => Returns (Arr [Str "go"; Str "rust"]))
                                (Config.Content "langs.json")
       = ([], Normal config)
       /\ Value.get config "defaultLang" = Str "python"
       /\ Value.get config "0" = Str "go".
Proof.
  assert (H1 : (fun _ : string => Returns (Arr [Str "go"; Str "rust"])) "langs.json"
               = Returns (Arr [Str "go"; Str "rust"])) by reflexivity.
  assert (H2 : forall m, Arr [Str "go"; Str "rust"] <> Obj m) by discriminate.
  destruct (non_object_document_keeps_defaults
              (fun _ => Returns (Arr [Str "go"; Str "rust"])) "langs.json"
              (Arr [Str "go"; Str "rust"]) H1 H2) as (config & Hload & Hlang & _).
  split; [exact H1|split; [exact H2|]].
  exists config. split; [exact Hload|split; [exact Hlang|]].
  injection Hload as <-. reflexivity.
Defined.

(** ** The split at the folder marker *)

Lemma append_unit_assoc (cur : string) (c : ascii) (p : string) :
  (cur +:+ String c EmptyString) +:+ p = cur +:+ String c p.
Proof.
  induction cur as [|a cur IH]; [reflexivity|].
  change (String a ((cur +:+ String c EmptyString) +:+ p) = String a (cur +:+ String c p)).
  f_equal. exact IH.
Qed.

Lemma append_empty_r (s : string) : s +:+ "" = s.
Proof.
  induction s as [|a s IH]; [reflexivity|].
  change (String a (s +:+ "") = String a s). f_equal. exact IH.
Qed.

Lemma prefix_cons (a c : ascii) (sub s : string) :
  String.prefix (String a sub) (String c s)
  = if ascii_dec a c then String.prefix sub s else false.
Proof. reflexivity. Qed.

Lemma includes_cons (c : ascii) (s sub : string) :
  JS.includes (String c s) sub = String.prefix sub (String c s) || JS.includes s sub.
Proof. reflexivity. Qed.

Lemma split_go_cons (sep cur : string) (c : ascii) (s : string) :
  JS.split_go sep 0 cur (String c s)
  = if String.prefix sep (String c s)
    then cur :: JS.split_go sep (String.length sep - 1) "" s
    else JS.split_go sep 0 (cur +:+ String c "") s.
Proof. reflexivity. Qed.

(** At the marker the current piece is closed and the marker passed over. *)
Lemma split_go_marker (cur s : string) :
  JS.split_go "?folders=" 0 cur ("?folders=" +:+ s)
  = cur :: JS.split_go "?folders=" 0 "" s.
Proof. destruct s; reflexivity. Qed.

Lemma prefix_marker (s : string) : String.prefix "?folders=" ("?folders=" +:+ s) = true.
Proof. destruct s; reflexivity. Qed.

Lemma includes_after (pre s sub : string) :
  String.prefix sub s = true -> JS.includes (pre +:+ s) sub = true.
Proof.
  intros H. induction pre as [|c pre IH].
  - change ("" +:+ s) with s. destruct s as [|c s].
    + unfold JS.includes. rewrite H. reflexivity.
    + rewrite includes_cons, H. reflexivity.
  - change (String c pre +:+ s) with (String c (pre +:+ s)).
    rewrite includes_cons, IH. apply orb_true_r.
Qed.

Lemma prefix_empty (s : string) : String.prefix "" s = true.
Proof. destruct s; reflexivity. Qed.

Lemma prefix_refl (p : string) : String.prefix p p = true.
Proof.
  induction p as [|a p IH]; [reflexivity|].
  rewrite prefix_cons. destruct (ascii_dec a a); [exact IH|congruence].
Qed.

(** A prefix of [x] is a prefix of [x] followed by anything. *)
Lemma prefix_app_l (p x y : string) :
  String.prefix p x = true -> String.prefix p (x +:+ y) = true.
Proof.
  revert x. induction p as [|a p IH]; intros x H; [apply prefix_empty|].
  destruct x as [|c x]; [discriminate H|].
  change (String c x +:+ y) with (String c (x +:+ y)).
  rewrite prefix_cons in *. destruct (ascii_dec a c); [apply IH; exact H|discriminate H].
Qed.

(** What has [p] as a prefix is [p] followed by something. *)
Lemma prefix_split (p s : string) :
  String.prefix p s = true -> exists r, s = p +:+ r.
Proof.
  revert s. induction p as [|a p IH]; intros s H; [exists s; reflexivity|].
  destruct s as [|c s]; [discriminate H|].
  rewrite prefix_cons in H. destruct (ascii_dec a c) as [->|]; [|discriminate H].
  destruct (IH s H) as [r ->]. exists r. reflexivity.
Qed.

(** A prefix of [x] followed by [y] lies within [x], or ends in [y]. *)
Lemma prefix_app_cases (p x y : string) :
  String.prefix p (x +:+ y) = true ->
  String.prefix p x = true
  \/ exists p1 p2, p = p1 +:+ p2 /\ x = p1 /\ String.prefix p2 y = true.
Proof.
  revert x. induction p as [|a p IH]; intros x H; [left; apply prefix_empty|].
  destruct x as [|c x].
  - right. exists "", (String a p). repeat split. exact H.
  - change (String c x +:+ y) with (String c (x +:+ y)) in H.
    rewrite prefix_cons in H. destruct (ascii_dec a c) as [->|]; [|discriminate H].
    destruct (IH x H) as [Hin|(p1 & p2 & -> & -> & Hp2)].
    + left. rewrite prefix_cons. destruct (ascii_dec c c); [exact Hin|congruence].
    + right. exists (String c p1), p2. repeat split. exact Hp2.
Qed.

(** The marker has its only question mark in front, so it does not begin
    inside a stretch that holds no marker and is followed by one. *)
Lemma no_marker_start (c : ascii) (x y : string) :
  JS.includes (String c x) "?folders=" = false ->
  String.prefix "?folders=" (String c x +:+ "?folders=" +:+ y) = false.
Proof.
  intros Hno. rewrite includes_cons in Hno. apply orb_false_iff in Hno as [Hhead _].
  destruct (String.prefix "?folders=" (String c x +:+ "?folders=" +:+ y)) eqn:H;
    [|reflexivity].
  exfalso. apply prefix_app_cases in H as [Hin|(p1 & p2 & Hsplit & Hx & Hp2)].
  - congruence.
  - rewrite <- Hx in Hsplit. clear Hx p1. destruct p2 as [|d p2].
    + rewrite append_empty_r in Hsplit.
      rewrite <- Hsplit, prefix_refl in Hhead. discriminate.
    + change ("?folders=" +:+ y) with (String "?" ("folders=" +:+ y)) in Hp2.
      rewrite prefix_cons in Hp2. destruct (ascii_dec d "?") as [->|]; [|discriminate].
      change (String c x +:+ String "?" p2) with (String c (x +:+ String "?" p2))
        in Hsplit.
      injection Hsplit as _ Htail.
      assert (Hq : JS.includes "folders=" "?" = true).
      { rewrite Htail. apply includes_after. rewrite prefix_cons.
        destruct (ascii_dec "?" "?"); [apply prefix_empty|congruence]. }
      discriminate Hq.
Qed.

(** A stretch without the marker, followed by the marker, is one piece. *)
Lemma split_go_upto (cur pre y : string) :
  JS.includes pre "?folders=" = false ->
  JS.split_go "?folders=" 0 cur (pre +:+ "?folders=" +:+ y)
  = (cur +:+ pre) :: JS.split_go "?folders=" 0 "" y.
Proof.
  revert cur. induction pre as [|c pre IH]; intros cur Hno.
  - rewrite append_empty_r. apply split_go_marker.
  - pose proof (no_marker_start c pre y Hno) as Hstart.
    rewrite includes_cons in Hno. apply orb_false_iff in Hno as [_ Hno].
    change (String c pre +:+ "?folders=" +:+ y)
      with (String c (pre +:+ "?folders=" +:+ y)) in *.
    rewrite split_go_cons, Hstart, (IH _ Hno), append_unit_assoc. reflexivity.
Qed.

(** A stretch without the marker that ends the string is the last piece. *)
Lemma split_go_end (cur pre : string) :
  JS.includes pre "?folders=" = false ->
  JS.split_go "?folders=" 0 cur pre = [cur +:+ pre].
Proof.
  revert cur. induction pre as [|c pre IH]; intros cur Hno.
  - rewrite append_empty_r. reflexivity.
  - rewrite includes_cons in Hno. apply orb_false_iff in Hno as [Hhead Hno].
    rewrite split_go_cons, Hhead, (IH _ Hno), append_unit_assoc. reflexivity.
Qed.

(** A string that holds the marker splits at its first occurrence. *)
Lemma first_marker (s : string) :
  JS.includes s "?folders=" = true ->
  exists pre post,
    s = pre +:+ "?folders=" +:+ post /\ JS.includes pre "?folders=" = false.
Proof.
  induction s as [|c s IH]; [discriminate|].
  rewrite includes_cons. intros H.
  destruct (String.prefix "?folders=" (String c s)) eqn:Hhead.
  - destruct (prefix_split _ _ Hhead) as [post ->].
    exists "", post. split; reflexivity.
  - simpl in H. destruct (IH H) as (pre & post & -> & Hpre).
    exists (String c pre), post. split; [reflexivity|].
    rewrite includes_cons, Hpre, orb_false_r.
    destruct (String.prefix "?folders=" (String c pre)) eqn:Hp; [|reflexivity].
    apply (prefix_app_l _ _ ("?folders=" +:+ post)) in Hp.
    change (String c pre +:+ "?folders=" +:+ post)
      with (String c (pre +:+ "?folders=" +:+ post)) in Hp.
    congruence.
Qed.

Lemma split_folders_at (pre mid tail : string) :
  JS.includes pre "?folders=" = false ->
  JS.includes mid "?folders=" = false ->
  (tail = "" \/ exists rest, tail = "?folders=" +:+ rest) ->
  split_folders (pre +:+ "?folders=" +:+ mid +:+ tail) = (pre, mid).
Proof.
  intros Hpre Hmid Htail. unfold split_folders.
  rewrite includes_after by apply prefix_marker.
  unfold JS.split. rewrite (split_go_upto "" pre _ Hpre).
  destruct Htail as [->|[rest ->]].
  - rewrite append_empty_r, (split_go_end "" mid Hmid). reflexivity.
  - rewrite (split_go_upto "" mid _ Hmid). reflexivity.
Qed.

(** X18: had the sanitiser let the marker through, the split would cut
    every string that holds the marker at its first occurrence: what
    stands before it is the id, and the folders are what stands between
    it and the next marker or the end; whatever follows a second marker
    is dropped. *)
Theorem split_folders_first_marker (s : string) :
  JS.includes s "?folders=" = true ->
  exists pre mid tail,
    s = pre +:+ "?folders=" +:+ mid +:+ tail
    /\ JS.includes pre "?folders=" = false
    /\ JS.includes mid "?folders=" = false
    /\ (tail = "" \/ exists rest, tail = "?folders=" +:+ rest)
    /\ split_folders s = (pre, mid).
Proof.
  intros Hs. destruct (first_marker s Hs) as (pre & post & -> & Hpre).
  destruct (JS.includes post "?folders=") eqn:Hpost.
  - destruct (first_marker post Hpost) as (mid & rest & -> & Hmid).
    exists pre, mid, ("?folders=" +:+ rest). repeat split; try assumption.
    + right. exists rest. reflexivity.
    + apply split_folders_at; [assumption..|]. right. exists rest. reflexivity.
  - exists pre, post, "". repeat split; try assumption.
    + rewrite append_empty_r. reflexivity.
    + left. reflexivity.
    + pose proof (split_folders_at pre post "" Hpre Hpost (or_introl eq_refl)) as H.
      rewrite append_empty_r in H. exact H.
Qed.

Lemma split_folders_first_marker_witness :
  JS.includes "a?b?folders=/docs?folders=/api" "?folders=" = true
  /\ exists pre mid tail,
       "a?b?folders=/docs?folders=/api" = pre +:+ "?folders=" +:+ mid +:+ tail
       /\ JS.includes pre "?folders=" = false
       /\ JS.includes mid "?folders=" = false
       /\ (tail = "" \/ exists rest, tail = "?folders=" +:+ rest)
       /\ split_folders "a?b?folders=/docs?folders=/api" = (pre, mid).
Proof.
  assert (H : JS.includes "a?b?folders=/docs?folders=/api" "?folders=" = true)
    by reflexivity.
  split; [exact H|].
  exact (split_folders_first_marker "a?b?folders=/docs?folders=/api" H).
Defined.

Example split_folders_runs :
  split_folders "a?b?folders=/docs?folders=/api" = ("a?b", "/docs")
  /\ split_folders "x?folders?folders=y" = ("x?folders", "y")
  /\ split_folders "?folders=" = ("", "")
  /\ split_folders "no marker" = ("no marker", "").
Proof. repeat split; reflexivity. Qed.
